(** * Inventory: a shallow embedding of [updated_inventory_system.py]

    The development models the class [Inventory] of the Python module: the
    attribute [stock_data], the methods [add_item], [remove_item],
    [get_qty], [load_data], [save_data], [print_data] and
    [check_low_items], and the part of the Python runtime they touch
    (dynamic values, exceptions, [sys.stderr]/[sys.stdout], the files
    reached through [open], the [json] codec).

    Modelling conventions.
    - Python values are the float-free JSON universe [pyval]; [int] is
      unbounded ([Z]); [bool] is a subclass of [int], as in Python.
    - A [dict] keeps insertion order and is an association list with
      string keys (every key of [stock_data] is a [str]: [add_item]
      validates it, and JSON object keys are strings).
    - Methods run in the monad [M]: a state transformer that returns either
      a value or a raised exception; the state reached at a [raise] is kept,
      as in Python.
    - f-strings are kept as lists of fragments (literal text and formatted
      holes), so no model of [str()] is needed.
    - Files are whole texts; a file whose bytes are not UTF-8 has no text.
      What [open], the write and the close do at a path is given by the
      [node] found there, separately for reading and for writing.
      The [json] module is an interface ([JsonCodec]); [PyJson] gives an
      executable instance for the float-free fragment.
    - [clock] is what [datetime.now()] reads; nothing here relates two
      readings of it. *)

From Stdlib Require Import ZArith List String Ascii Bool Lia.
From Stdlib Require DecimalFacts DecimalPos DecimalZ.
Import ListNotations.

Local Open Scope string_scope.
Local Open Scope list_scope.
Local Open Scope Z_scope.

(** ** Python values

    The values a JSON text without fractions or exponents decodes to.  A
    [float], which [json.load] can also return, is not among them; the
    statements below about a stored value that is not an integer name the
    kinds of value they cover ([not_a_number]). *)

Local Unset Elimination Schemes.

Inductive pyval : Type :=
| PNone
| PBool (b : bool)
| PInt (z : Z)
| PStr (s : string)
| PList (l : list pyval)
| PDict (d : list (string * pyval)).

Local Set Elimination Schemes.

(** [isinstance(v, int)], together with the integer the value denotes
    ([True] is [1], [False] is [0]). *)
Definition int_value (v : pyval) : option Z :=
  match v with
  | PInt z => Some z
  | PBool true => Some 1
  | PBool false => Some 0
  | _ => None
  end.

(** [bool(v)], the truth value used by [not v] and [if v]. *)
Definition truthy (v : pyval) : bool :=
  match v with
  | PNone => false
  | PBool b => b
  | PInt z => negb (z =? 0)
  | PStr s => negb (s =? "")%string
  | PList l => match l with [] => false | _ => true end
  | PDict d => match d with [] => false | _ => true end
  end.

(** ** Insertion-ordered dictionaries *)

Definition dict := list (string * pyval).

Fixpoint dict_lookup (d : dict) (k : string) : option pyval :=
  match d with
  | [] => None
  | (k', v) :: d' => if (k' =? k)%string then Some v else dict_lookup d' k
  end.

Definition dict_mem (d : dict) (k : string) : bool :=
  match dict_lookup d k with Some _ => true | None => false end.

(** [d[k] = v]: an existing key keeps its position, a new key goes last. *)
Fixpoint dict_set (d : dict) (k : string) (v : pyval) : dict :=
  match d with
  | [] => [(k, v)]
  | (k', v') :: d' =>
      if (k' =? k)%string then (k', v) :: d' else (k', v') :: dict_set d' k v
  end.

(** [del d[k]]. *)
Definition dict_del (d : dict) (k : string) : dict :=
  filter (fun kv => negb (fst kv =? k)%string) d.

Definition keys (d : dict) : list string := map fst d.

(** ** Messages, exceptions *)

Inductive os_kind : Type :=
| FileNotFound        (* FileNotFoundError *)
| PermissionDenied    (* PermissionError *)
| IsADirectory        (* IsADirectoryError *)
| OtherOSError.       (* any other OSError *)

Local Unset Elimination Schemes.

(** An f-string: literal pieces and formatted holes. *)
Inductive frag : Type :=
| Lit (s : string)
| Fmt (v : pyval)        (* {v} *)
| FmtNow (t : Z)         (* {datetime.now()} *)
| FmtExn (e : exn)       (* {e} *)
with exn : Type :=
| KeyError (arg : list frag)
| TypeError
| AttributeError
| OSError (k : os_kind)          (* IOError is an alias of OSError *)
| JSONDecodeError                (* json.JSONDecodeError, a ValueError *)
| UnicodeDecodeError             (* a ValueError, not a JSONDecodeError *)
| ValueError.                    (* any other ValueError *)

Local Set Elimination Schemes.

Definition message := list frag.

(** The text starts with [p]: decided on the leading literal. *)
Definition starts_with (p : string) (m : message) : bool :=
  match m with
  | Lit s :: _ => String.prefix p s
  | _ => false
  end.

(** ** The world: files, streams, clock *)

Inductive content : Type :=
| Text (s : string)     (* the bytes decode as UTF-8 to [s] *)
| Undecodable.          (* the bytes are not valid UTF-8 *)

Inductive node : Type :=
| Absent                     (* no such file; it can be created *)
| Regular (c : content)      (* a readable and writable regular file *)
| Unopenable (k : os_kind)   (* [open] raises [OSError k] in any mode *)
| BadPath                    (* [open] raises ValueError in any mode: the
                                path has an embedded NUL character *)
| Uncreatable (k : os_kind)  (* no such file, and none can be created:
                                reading raises FileNotFoundError, [open]
                                for writing raises [OSError k] *)
| WriteOnly                  (* a file that can be written but not read:
                                reading raises PermissionError *)
| Failing (k : os_kind) (remains : content).
                             (* no such file; [open] for writing creates
                                it, then the write or the close raises
                                [OSError k] and the file is left holding
                                [remains] *)

Record state : Type := mkState {
  stock_data : pyval;            (* self.stock_data *)
  fs : string -> node;
  stderr : list message;         (* lines printed to sys.stderr *)
  stdout : list message;         (* lines printed to sys.stdout *)
  clock : Z                      (* what datetime.now() reads *)
}.

Definition set_stock (v : pyval) (st : state) : state :=
  mkState v (fs st) (stderr st) (stdout st) (clock st).

Definition set_file (p : string) (n : node) (st : state) : state :=
  mkState (stock_data st)
          (fun q => if (q =? p)%string then n else fs st q)
          (stderr st) (stdout st) (clock st).

Definition push_stderr (m : message) (st : state) : state :=
  mkState (stock_data st) (fs st) (stderr st ++ [m]) (stdout st) (clock st).

Definition push_stdout (m : message) (st : state) : state :=
  mkState (stock_data st) (fs st) (stderr st) (stdout st ++ [m]) (clock st).

(** ** The monad of methods *)

Inductive outcome (A : Type) : Type :=
| Ret (a : A)
| Raise (e : exn).
Arguments Ret {A} a.
Arguments Raise {A} e.

Definition M (A : Type) : Type := state -> outcome A * state.

Definition ret {A} (a : A) : M A := fun st => (Ret a, st).
Definition raise {A} (e : exn) : M A := fun st => (Raise e, st).

Definition bind {A B} (m : M A) (f : A -> M B) : M B :=
  fun st =>
    match m st with
    | (Ret a, st') => f a st'
    | (Raise e, st') => (Raise e, st')
    end.

(** [try: body except ...: handler]; [handler e = None] when no clause
    matches [e], which is then re-raised. *)
Definition try_except {A} (body : M A) (handler : exn -> option (M A)) : M A :=
  fun st =>
    match body st with
    | (Ret a, st') => (Ret a, st')
    | (Raise e, st') =>
        match handler e with
        | Some h => h st'
        | None => (Raise e, st')
        end
    end.

Definition lift {A} (o : outcome A) : M A := fun st => (o, st).
Definition get_stock : M pyval := fun st => (Ret (stock_data st), st).
Definition put_stock (v : pyval) : M unit := fun st => (Ret tt, set_stock v st).
Definition eprint (m : message) : M unit := fun st => (Ret tt, push_stderr m st).
Definition print_out (m : message) : M unit := fun st => (Ret tt, push_stdout m st).
Definition datetime_now : M Z := fun st => (Ret (clock st), st).

Declare Scope py_scope.
Delimit Scope py_scope with py.
Notation "x <- m ;; k" := (bind m (fun x => k))
  (at level 61, m at next level, right associativity) : py_scope.
Notation "m ;; k" := (bind m (fun _ => k))
  (at level 61, right associativity) : py_scope.
Local Open Scope py_scope.

(** ** Python operations used by the methods *)

(** [o.get(k, dflt)] *)
Definition py_get (o : pyval) (k : string) (dflt : pyval) : outcome pyval :=
  match o with
  | PDict d => Ret (match dict_lookup d k with Some v => v | None => dflt end)
  | _ => Raise AttributeError
  end.

Fixpoint is_substring (k t : string) : bool :=
  String.prefix k t
  || match t with
     | EmptyString => false
     | String _ t' => is_substring k t'
     end.

(** [k in o] for a [str] key [k] *)
Definition py_contains (k : string) (o : pyval) : outcome bool :=
  match o with
  | PDict d => Ret (dict_mem d k)
  | PList l =>
      Ret (existsb (fun x => match x with PStr t => (t =? k)%string | _ => false end) l)
  | PStr t => Ret (is_substring k t)
  | _ => Raise TypeError
  end.

(** [o[k]] for a [str] key [k] *)
Definition py_getitem (o : pyval) (k : string) : outcome pyval :=
  match o with
  | PDict d =>
      match dict_lookup d k with
      | Some v => Ret v
      | None => Raise (KeyError [Fmt (PStr k)])
      end
  | _ => Raise TypeError
  end.

(** [o[k] = v] for a [str] key [k]; the updated object *)
Definition py_setitem (o : pyval) (k : string) (v : pyval) : outcome pyval :=
  match o with
  | PDict d => Ret (PDict (dict_set d k v))
  | _ => Raise TypeError
  end.

(** [del o[k]] for a [str] key [k]; the updated object *)
Definition py_delitem (o : pyval) (k : string) : outcome pyval :=
  match o with
  | PDict d =>
      if dict_mem d k then Ret (PDict (dict_del d k))
      else Raise (KeyError [Fmt (PStr k)])
  | _ => Raise TypeError
  end.

(** [o.items()] *)
Definition py_items (o : pyval) : outcome dict :=
  match o with
  | PDict d => Ret d
  | _ => Raise AttributeError
  end.

(** [v + n], [v - n], [v < n], [v <= n] for an integer [n] *)
Definition py_add_int (v : pyval) (n : Z) : outcome pyval :=
  match int_value v with Some x => Ret (PInt (x + n)) | None => Raise TypeError end.
Definition py_sub_int (v : pyval) (n : Z) : outcome pyval :=
  match int_value v with Some x => Ret (PInt (x - n)) | None => Raise TypeError end.
Definition py_lt_int (v : pyval) (n : Z) : outcome bool :=
  match int_value v with Some x => Ret (x <? n) | None => Raise TypeError end.
Definition py_le_int (v : pyval) (n : Z) : outcome bool :=
  match int_value v with Some x => Ret (x <=? n) | None => Raise TypeError end.

(** ** The [json] module, as an interface *)

Class JsonCodec : Type := {
  (** the text [json.dump(obj, f, indent=4)] writes *)
  json_dumps : pyval -> string;
  (** what [json.load(f)] decodes from a text; [None]: JSONDecodeError *)
  json_loads : string -> option pyval
}.

(** ** File access *)

(** [open(file, "r", encoding="utf-8")] followed by reading the text *)
Definition read_text (file : string) : M string :=
  fun st =>
    match fs st file with
    | Absent => (Raise (OSError FileNotFound), st)
    | Unopenable k => (Raise (OSError k), st)
    | Regular Undecodable => (Raise UnicodeDecodeError, st)
    | Regular (Text s) => (Ret s, st)
    | BadPath => (Raise ValueError, st)
    | Uncreatable _ => (Raise (OSError FileNotFound), st)
    | WriteOnly => (Raise (OSError PermissionDenied), st)
    | Failing _ _ => (Raise (OSError FileNotFound), st)
    end.

(** [open(file, "w", encoding="utf-8")] followed by writing the text and
    closing the file *)
Definition write_text (file : string) (s : string) : M unit :=
  fun st =>
    match fs st file with
    | Unopenable k => (Raise (OSError k), st)
    | BadPath => (Raise ValueError, st)
    | Uncreatable k => (Raise (OSError k), st)
    | WriteOnly => (Ret tt, st)
    | Failing k remains =>
        (Raise (OSError k), set_file file (Regular remains) st)
    | _ => (Ret tt, set_file file (Regular (Text s)) st)
    end.

(** ** class Inventory *)

(** [__init__]: [self.stock_data = {}] *)
Definition init : M unit := put_stock (PDict []).

(** The guard [not isinstance(item, str) or not item] fails: the key. *)
Definition check_item (item : pyval) : option string :=
  match item with
  | PStr k => if truthy item then Some k else None
  | _ => None
  end.

(** The guard [not isinstance(qty, int) or qty < 0] fails: the amount. *)
Definition check_qty (qty : pyval) : option Z :=
  match int_value qty with
  | Some n => if n <? 0 then None else Some n
  | None => None
  end.

Definition bad_item_msg (item : pyval) : message :=
  [Lit "Error: Item name '"; Fmt item; Lit "' is not a valid string."].

Definition bad_qty_msg (qty : pyval) : message :=
  [Lit "Error: Quantity '"; Fmt qty; Lit "' is not a valid non-negative integer."].

Definition added_msg (t : Z) (item qty : pyval) : message :=
  [FmtNow t; Lit ": Added "; Fmt qty; Lit " of "; Fmt item].

(** [add_item(self, item, qty, logs=None)].  The result is the list the
    local name [logs] denotes when the method returns; it is the caller's
    list (mutated in place) when one was passed. *)
Definition add_item (item qty : pyval) (logs : option (list message))
  : M (option (list message)) :=
  match check_item item with
  | None => eprint (bad_item_msg item) ;; ret logs
  | Some k =>
      match check_qty qty with
      | None => eprint (bad_qty_msg qty) ;; ret logs
      | Some n =>
          let logs := match logs with None => [] | Some l => l end in
          sd <- get_stock ;;
          old <- lift (py_get sd k (PInt 0)) ;;
          new <- lift (py_add_int old n) ;;
          sd <- get_stock ;;
          sd' <- lift (py_setitem sd k new) ;;
          put_stock sd' ;;
          t <- datetime_now ;;
          ret (Some (logs ++ [added_msg t item qty]))
      end
  end.

Definition not_in_stock_msg (item : pyval) : message :=
  [Lit "Item '"; Fmt item; Lit "' not in stock. Cannot remove."].

Definition remove_error_msg (e : exn) : message :=
  [Lit "Error removing item: "; FmtExn e].

(** [remove_item(self, item, qty)] *)
Definition remove_item (item qty : pyval) : M unit :=
  match check_item item with
  | None => eprint (bad_item_msg item)
  | Some k =>
      match check_qty qty with
      | None => eprint (bad_qty_msg qty)
      | Some n =>
          try_except
            (sd <- get_stock ;;
             present <- lift (py_contains k sd) ;;
             (if negb present
              then raise (KeyError (not_in_stock_msg item))
              else ret tt) ;;
             (* self.stock_data[item] -= qty *)
             sd <- get_stock ;;
             old <- lift (py_getitem sd k) ;;
             new <- lift (py_sub_int old n) ;;
             sd' <- lift (py_setitem sd k new) ;;
             put_stock sd' ;;
             (* if self.stock_data[item] <= 0: del self.stock_data[item] *)
             sd <- get_stock ;;
             cur <- lift (py_getitem sd k) ;;
             low <- lift (py_le_int cur 0) ;;
             if low
             then sd <- get_stock ;;
                  sd' <- lift (py_delitem sd k) ;;
                  put_stock sd'
             else ret tt)
            (fun e =>
               match e with
               | KeyError _ | TypeError => Some (eprint (remove_error_msg e))
               | _ => None
               end)
      end
  end.

(** [get_qty(self, item)] *)
Definition get_qty (item : string) : M pyval :=
  sd <- get_stock ;;
  lift (py_get sd item (PInt 0)).

Definition file_not_found_msg (file : string) : message :=
  [Lit "Warning: File '"; Fmt (PStr file); Lit "' not found. ";
   Lit "Starting with empty inventory."].

Definition decode_error_msg (file : string) : message :=
  [Lit "Error: Could not decode JSON from '"; Fmt (PStr file); Lit "'. ";
   Lit "Starting with empty inventory."].

Definition save_error_msg (file : string) (e : exn) : message :=
  [Lit "Error saving data to '"; Fmt (PStr file); Lit "': "; FmtExn e].

Section Persistence.
Context {codec : JsonCodec}.

(** [json.load(f)] on the text read from [f] *)
Definition json_load (s : string) : M pyval :=
  match json_loads s with
  | Some v => ret v
  | None => raise JSONDecodeError
  end.

(** [load_data(self, file="inventory.json")] *)
Definition load_data (file : string) : M unit :=
  try_except
    (s <- read_text file ;;
     v <- json_load s ;;
     put_stock v)
    (fun e =>
       match e with
       | OSError FileNotFound =>
           Some (eprint (file_not_found_msg file) ;; put_stock (PDict []))
       | JSONDecodeError =>
           Some (eprint (decode_error_msg file) ;; put_stock (PDict []))
       | _ => None
       end).

(** [save_data(self, file="inventory.json")] *)
Definition save_data (file : string) : M unit :=
  try_except
    (sd <- get_stock ;;
     write_text file (json_dumps sd))
    (fun e =>
       match e with
       | OSError _ => Some (eprint (save_error_msg file e))
       | _ => None
       end).
End Persistence.

Definition item_line (item : string) (qty : pyval) : message :=
  [Fmt (PStr item); Lit " -> "; Fmt qty].

Fixpoint print_items (l : dict) : M unit :=
  match l with
  | [] => ret tt
  | (item, qty) :: l' => print_out (item_line item qty) ;; print_items l'
  end.

(** The newline character of the Python literals. *)
Definition nl : string := String (ascii_of_nat 10) EmptyString.

(** [print_data(self)] *)
Definition print_data : M unit :=
  print_out [Lit (nl ++ "--- Items Report ---")] ;;
  sd <- get_stock ;;
  (if negb (truthy sd)
   then print_out [Lit "Inventory is empty."]
   else l <- lift (py_items sd) ;; print_items l) ;;
  print_out [Lit ("--------------------" ++ nl)].

Fixpoint low_loop (l : dict) (threshold : Z) (low_stock_items : list string)
  : outcome (list string) :=
  match l with
  | [] => Ret low_stock_items
  | (item, qty) :: l' =>
      match py_lt_int qty threshold with
      | Ret true => low_loop l' threshold (low_stock_items ++ [item])
      | Ret false => low_loop l' threshold low_stock_items
      | Raise e => Raise e
      end
  end.

(** [check_low_items(self, threshold=5)] *)
Definition check_low_items (threshold : Z) : M (list string) :=
  sd <- get_stock ;;
  l <- lift (py_items sd) ;;
  lift (low_loop l threshold []).

(** The default arguments [file="inventory.json"] and [threshold=5]. *)
Definition default_file : string := "inventory.json".
Definition default_threshold : Z := 5.

(** ** An executable [json] codec for the float-free fragment

    [PyJson.dumps] follows [json.dump(obj, f, indent=4)] with the default
    [ensure_ascii=True]; [PyJson.loads] follows [json.load] (strict mode).
    Characters are the 8-bit [ascii]; a [\uXXXX] escape above U+00FF, a
    number with a fraction or an exponent, and the literals [NaN] and
    [Infinity] are outside the fragment and are not decoded. *)

Module PyJson.

Definition dquote : ascii := "034"%char.
Definition backslash : ascii := "092"%char.
Definition LF : ascii := "010"%char.
Definition CR : ascii := "013"%char.
Definition TAB : ascii := "009"%char.
Definition BS : ascii := "008"%char.
Definition FF : ascii := "012"%char.

Definition chars (s : string) : list ascii := list_ascii_of_string s.

(** *** Encoding *)

Definition hex_digit (n : nat) : ascii :=
  nth n (chars "0123456789abcdef") "0"%char.

Definition printable (c : ascii) : bool :=
  (32 <=? nat_of_ascii c)%nat && (nat_of_ascii c <=? 126)%nat.

Definition escape_char (c : ascii) : list ascii :=
  if (c =? dquote)%char then [backslash; dquote]
  else if (c =? backslash)%char then [backslash; backslash]
  else if (c =? LF)%char then [backslash; "n"%char]
  else if (c =? CR)%char then [backslash; "r"%char]
  else if (c =? TAB)%char then [backslash; "t"%char]
  else if (c =? BS)%char then [backslash; "b"%char]
  else if (c =? FF)%char then [backslash; "f"%char]
  else if printable c then [c]
  else [backslash; "u"%char; "0"%char; "0"%char;
        hex_digit (nat_of_ascii c / 16); hex_digit (nat_of_ascii c mod 16)].

Definition encode_str (s : string) : list ascii :=
  dquote :: flat_map escape_char (chars s) ++ [dquote].

Fixpoint uint_chars (d : Decimal.uint) : list ascii :=
  match d with
  | Decimal.Nil => []
  | Decimal.D0 d => "0"%char :: uint_chars d
  | Decimal.D1 d => "1"%char :: uint_chars d
  | Decimal.D2 d => "2"%char :: uint_chars d
  | Decimal.D3 d => "3"%char :: uint_chars d
  | Decimal.D4 d => "4"%char :: uint_chars d
  | Decimal.D5 d => "5"%char :: uint_chars d
  | Decimal.D6 d => "6"%char :: uint_chars d
  | Decimal.D7 d => "7"%char :: uint_chars d
  | Decimal.D8 d => "8"%char :: uint_chars d
  | Decimal.D9 d => "9"%char :: uint_chars d
  end.

Definition encode_int (z : Z) : list ascii :=
  match Z.to_int z with
  | Decimal.Pos d => uint_chars d
  | Decimal.Neg d => "-"%char :: uint_chars d
  end.

(** A line break and the indentation of nesting depth [level]. *)
Definition newline_indent (level : nat) : list ascii :=
  LF :: repeat " "%char (4 * level).

Fixpoint encode (level : nat) (v : pyval) : list ascii :=
  match v with
  | PNone => chars "null"
  | PBool true => chars "true"
  | PBool false => chars "false"
  | PInt z => encode_int z
  | PStr s => encode_str s
  | PList [] => chars "[]"
  | PList (x :: l) =>
      "["%char :: newline_indent (S level) ++ encode (S level) x
      ++ flat_map (fun y => ","%char :: newline_indent (S level)
                            ++ encode (S level) y) l
      ++ newline_indent level ++ ["]"%char]
  | PDict [] => chars "{}"
  | PDict (kx :: d) =>
      "{"%char :: newline_indent (S level)
      ++ encode_str (fst kx) ++ chars ": " ++ encode (S level) (snd kx)
      ++ flat_map (fun ky => ","%char :: newline_indent (S level)
                             ++ encode_str (fst ky) ++ chars ": "
                             ++ encode (S level) (snd ky)) d
      ++ newline_indent level ++ ["}"%char]
  end.

Definition dumps (v : pyval) : string := string_of_list_ascii (encode 0 v).

(** *** Decoding *)

Definition is_ws (c : ascii) : bool :=
  (c =? " ")%char || (c =? TAB)%char || (c =? LF)%char || (c =? CR)%char.

Fixpoint skip_ws (s : list ascii) : list ascii :=
  match s with
  | c :: r => if is_ws c then skip_ws r else s
  | [] => []
  end.

Definition hex_value (c : ascii) : option nat :=
  let n := nat_of_ascii c in
  if (48 <=? n)%nat && (n <=? 57)%nat then Some (n - 48)%nat
  else if (97 <=? n)%nat && (n <=? 102)%nat then Some (n - 87)%nat
  else if (65 <=? n)%nat && (n <=? 70)%nat then Some (n - 55)%nat
  else None.

Definition hex4 (a b c d : ascii) : option nat :=
  match hex_value a, hex_value b, hex_value c, hex_value d with
  | Some x, Some y, Some z, Some w => Some (((x * 16 + y) * 16 + z) * 16 + w)%nat
  | _, _, _, _ => None
  end.

Definition unescape (e : ascii) : option ascii :=
  if (e =? dquote)%char then Some dquote
  else if (e =? backslash)%char then Some backslash
  else if (e =? "/")%char then Some "/"%char
  else if (e =? "b")%char then Some BS
  else if (e =? "f")%char then Some FF
  else if (e =? "n")%char then Some LF
  else if (e =? "r")%char then Some CR
  else if (e =? "t")%char then Some TAB
  else None.

Definition cons_char (c : ascii) (r : option (list ascii * list ascii))
  : option (list ascii * list ascii) :=
  match r with
  | Some (s, rest) => Some (c :: s, rest)
  | None => None
  end.

(** The characters of a string literal, after its opening quote. *)
Fixpoint scan_string (s : list ascii) : option (list ascii * list ascii) :=
  match s with
  | [] => None
  | c :: r =>
      if (c =? dquote)%char then Some ([], r)
      else if (c =? backslash)%char then
        match r with
        | [] => None
        | e :: r1 =>
            if (e =? "u")%char then
              match r1 with
              | h1 :: h2 :: h3 :: h4 :: r2 =>
                  match hex4 h1 h2 h3 h4 with
                  | Some n =>
                      if (n <? 256)%nat
                      then cons_char (ascii_of_nat n) (scan_string r2)
                      else None
                  | None => None
                  end
              | _ => None
              end
            else
              match unescape e with
              | Some c' => cons_char c' (scan_string r1)
              | None => None
              end
        end
      else if (nat_of_ascii c <? 32)%nat then None
      else cons_char c (scan_string r)
  end.

Definition digit (c : ascii) (d : Decimal.uint) : option Decimal.uint :=
  if (c =? "0")%char then Some (Decimal.D0 d)
  else if (c =? "1")%char then Some (Decimal.D1 d)
  else if (c =? "2")%char then Some (Decimal.D2 d)
  else if (c =? "3")%char then Some (Decimal.D3 d)
  else if (c =? "4")%char then Some (Decimal.D4 d)
  else if (c =? "5")%char then Some (Decimal.D5 d)
  else if (c =? "6")%char then Some (Decimal.D6 d)
  else if (c =? "7")%char then Some (Decimal.D7 d)
  else if (c =? "8")%char then Some (Decimal.D8 d)
  else if (c =? "9")%char then Some (Decimal.D9 d)
  else None.

(** The longest run of decimal digits at the head of [s]. *)
Fixpoint scan_digits (s : list ascii) : Decimal.uint * list ascii :=
  match s with
  | [] => (Decimal.Nil, [])
  | c :: r =>
      let (d, rest) := scan_digits r in
      match digit c d with
      | Some d' => (d', rest)
      | None => (Decimal.Nil, s)
      end
  end.

(** What may not follow the integer part of an integer literal. *)
Definition continues_number (s : list ascii) : bool :=
  match s with
  | c :: _ => (c =? ".")%char || (c =? "e")%char || (c =? "E")%char
  | [] => false
  end.

Definition scan_int (s : list ascii) : option (Z * list ascii) :=
  let (neg, s1) :=
    match s with
    | c :: r => if (c =? "-")%char then (true, r) else (false, s)
    | [] => (false, s)
    end in
  let (d, rest) := scan_digits s1 in
  match d with
  | Decimal.Nil => None
  | _ =>
      match d with
      | Decimal.D0 (Decimal.Nil) | Decimal.D1 _ | Decimal.D2 _ | Decimal.D3 _
      | Decimal.D4 _ | Decimal.D5 _ | Decimal.D6 _ | Decimal.D7 _
      | Decimal.D8 _ | Decimal.D9 _ =>
          if continues_number rest then None
          else Some (Z.of_int (if neg then Decimal.Neg d else Decimal.Pos d), rest)
      | _ => None
      end
  end.

Fixpoint expect (lit s : list ascii) : option (list ascii) :=
  match lit, s with
  | [], _ => Some s
  | a :: lit', b :: s' => if (a =? b)%char then expect lit' s' else None
  | _ :: _, [] => None
  end.

Fixpoint scan_value (fuel : nat) (s : list ascii) : option (pyval * list ascii) :=
  match fuel with
  | O => None
  | S fuel' =>
      match s with
      | [] => None
      | c :: r =>
          if (c =? dquote)%char then
            match scan_string r with
            | Some (t, rest) => Some (PStr (string_of_list_ascii t), rest)
            | None => None
            end
          else if (c =? "{")%char then
            match skip_ws r with
            | c' :: r' =>
                if (c' =? "}")%char then Some (PDict [], r')
                else scan_members fuel' (c' :: r') []
            | [] => None
            end
          else if (c =? "[")%char then
            match skip_ws r with
            | c' :: r' =>
                if (c' =? "]")%char then Some (PList [], r')
                else scan_items fuel' (c' :: r') []
            | [] => None
            end
          else if (c =? "n")%char then
            option_map (pair PNone) (expect (chars "ull") r)
          else if (c =? "t")%char then
            option_map (pair (PBool true)) (expect (chars "rue") r)
          else if (c =? "f")%char then
            option_map (pair (PBool false)) (expect (chars "alse") r)
          else
            match scan_int s with
            | Some (z, rest) => Some (PInt z, rest)
            | None => None
            end
      end
  end
with scan_items (fuel : nat) (s : list ascii) (acc : list pyval)
  : option (pyval * list ascii) :=
  match fuel with
  | O => None
  | S fuel' =>
      match scan_value fuel' s with
      | Some (v, rest) =>
          match skip_ws rest with
          | c :: r =>
              if (c =? "]")%char then Some (PList (acc ++ [v]), r)
              else if (c =? ",")%char
                   then scan_items fuel' (skip_ws r) (acc ++ [v])
                   else None
          | [] => None
          end
      | None => None
      end
  end
with scan_members (fuel : nat) (s : list ascii) (acc : dict)
  : option (pyval * list ascii) :=
  match fuel with
  | O => None
  | S fuel' =>
      match s with
      | c :: r =>
          if (c =? dquote)%char then
            match scan_string r with
            | Some (k, rest) =>
                match skip_ws rest with
                | c1 :: r1 =>
                    if (c1 =? ":")%char then
                      match scan_value fuel' (skip_ws r1) with
                      | Some (v, rest') =>
                          let acc' := dict_set acc (string_of_list_ascii k) v in
                          match skip_ws rest' with
                          | c2 :: r2 =>
                              if (c2 =? "}")%char then Some (PDict acc', r2)
                              else if (c2 =? ",")%char
                                   then scan_members fuel' (skip_ws r2) acc'
                                   else None
                          | [] => None
                          end
                      | None => None
                      end
                    else None
                | [] => None
                end
            | None => None
            end
          else None
      | [] => None
      end
  end.

Definition loads (s : string) : option pyval :=
  let cs := chars s in
  match scan_value (S (List.length cs)) (skip_ws cs) with
  | Some (v, rest) =>
      match skip_ws rest with
      | [] => Some v
      | _ :: _ => None
      end
  | None => None
  end.

(** *** Notions used to state that decoding inverts encoding *)

(** What follows a value in an encoded text: nothing, a comma or a line
    break. *)
Definition follow (r : list ascii) : bool :=
  match r with
  | [] => true
  | c :: _ => (c =? ",")%char || (c =? LF)%char
  end.

(** At least one digit and no leading zero. *)
Definition canonical (d : Decimal.uint) : Prop :=
  match d with
  | Decimal.Nil => False
  | Decimal.D0 Decimal.Nil => True
  | Decimal.D0 _ => False
  | _ => True
  end.

(** The text starts with a character that is neither white space nor a
    closing bracket. *)
Definition opens (s : list ascii) : Prop :=
  match s with
  | c :: _ => is_ws c = false /\ (c =? "]")%char = false /\ (c =? "}")%char = false
  | [] => False
  end.

(** The encoding of [v], at any depth and before any follower, is decoded
    to [v] with fuel above its length. *)
Definition decodes (v : pyval) : Prop :=
  forall level fuel rest,
    (List.length (encode level v) < fuel)%nat ->
    follow rest = true ->
    scan_value fuel (encode level v ++ rest) = Some (v, rest).

Definition item_text (level : nat) (y : pyval) : list ascii :=
  ","%char :: newline_indent (S level) ++ encode (S level) y.

Definition member_text (level : nat) (ky : string * pyval) : list ascii :=
  ","%char :: newline_indent (S level)
  ++ encode_str (fst ky) ++ chars ": " ++ encode (S level) (snd ky).

Definition first_member (level : nat) (kx : string * pyval) : list ascii :=
  encode_str (fst kx) ++ chars ": " ++ encode (S level) (snd kx).

End PyJson.

#[export] Instance py_json : JsonCodec :=
  {| json_dumps := PyJson.dumps; json_loads := PyJson.loads |}.

(** ** Well-formed values: the keys of every [dict] are pairwise distinct *)

Fixpoint distinct (l : list string) : bool :=
  match l with
  | [] => true
  | k :: l' => negb (existsb (String.eqb k) l') && distinct l'
  end.

Fixpoint well_formed (v : pyval) : bool :=
  match v with
  | PList l => forallb well_formed l
  | PDict d => distinct (keys d) && forallb (fun kv => well_formed (snd kv)) d
  | _ => true
  end.

(** The contract of [json]: loading what was dumped gives the value back. *)
Class JsonRoundTrip (codec : JsonCodec) : Prop :=
  json_loads_dumps :
    forall v, well_formed v = true -> json_loads (json_dumps v) = Some v.

(** ** What the specification calls valid input and a stock mapping *)

(** "item must be non-empty text" *)
Definition valid_item (item : pyval) : Prop :=
  exists k, item = PStr k /\ k <> "".

(** "qty must be an integer >= 0" (an [int] instance, as Python sees it) *)
Definition valid_qty (qty : pyval) : Prop :=
  exists n, int_value qty = Some n /\ 0 <= n.

(** Every stored quantity is an integer. *)
Definition int_valued (d : dict) : Prop :=
  forall k v, In (k, v) d -> exists z, v = PInt z.

(** Every stored quantity is an integer >= 0 (the data model's quantity). *)
Definition nonneg_valued (d : dict) : Prop :=
  forall k v, In (k, v) d -> exists z, v = PInt z /\ 0 <= z.

(** The invariant of the data model: a mapping whose every value is a
    strictly positive integer. *)
Definition positive_stock (sd : pyval) : Prop :=
  exists d, sd = PDict d /\ forall k v, In (k, v) d -> exists z, v = PInt z /\ 0 < z.

(** The items whose stored quantity is strictly below [T], in the order of
    the mapping. *)
Definition below (T : Z) (d : dict) : list string :=
  keys (filter (fun kv => match int_value (snd kv) with
                          | Some z => z <? T
                          | None => false
                          end) d).

(** The lines of a report that show [item]. *)
Definition shows (item : string) (line : message) : Prop :=
  exists qty, line = item_line item qty.

(** ** The report, as a list of lines *)

Definition push_lines (ls : list message) (st : state) : state :=
  mkState (stock_data st) (fs st) (stderr st) (stdout st ++ ls) (clock st).

Definition item_lines (d : dict) : list message :=
  map (fun kv => item_line (fst kv) (snd kv)) d.

(** What [print_data] prints for a mapping. *)
Definition report (d : dict) : list message :=
  [[Lit (nl ++ "--- Items Report ---")]]
  ++ match d with
     | [] => [[Lit "Inventory is empty."]]
     | _ => item_lines d
     end
  ++ [[Lit ("--------------------" ++ nl)]].

(** ** The operations of the store, and the failures of a load *)

Inductive operation : Type :=
| OpAdd (item qty : pyval) (logs : option (list message))
| OpRemove (item qty : pyval)
| OpLoad (file : string)
| OpSave (file : string)
| OpGetQty (item : string)
| OpLowStock (threshold : Z)
| OpReport.

(** The state an operation leaves, whether it returns or raises. *)
Definition exec {codec : JsonCodec} (op : operation) (st : state) : state :=
  match op with
  | OpAdd item qty logs => snd (add_item item qty logs st)
  | OpRemove item qty => snd (remove_item item qty st)
  | OpLoad file => snd (load_data file st)
  | OpSave file => snd (save_data file st)
  | OpGetQty item => snd (get_qty item st)
  | OpLowStock threshold => snd (check_low_items threshold st)
  | OpReport => snd (print_data st)
  end.

(** There is no file to open for reading. *)
Definition missing (st : state) (file : string) : Prop :=
  fs st file = Absent \/ fs st file = Unopenable FileNotFound
  \/ (exists k, fs st file = Uncreatable k)
  \/ (exists k remains, fs st file = Failing k remains).

(** The file holds text that is not JSON. *)
Definition malformed {codec : JsonCodec} (st : state) (file : string) : Prop :=
  exists s, fs st file = Regular (Text s) /\ json_loads s = None.

(** What the invariant of the data model asks of an operation: [add_item]
    does not add zero of a valid item the mapping does not hold, and the
    JSON value [load_data] decodes satisfies the invariant. *)
Definition harmless {codec : JsonCodec} (op : operation) (st : state) : Prop :=
  match op with
  | OpAdd item qty _ =>
      ~ (int_value qty = Some 0
         /\ exists k d, item = PStr k /\ k <> ""
                        /\ stock_data st = PDict d /\ ~ In k (keys d))
  | OpLoad file =>
      forall s v, fs st file = Regular (Text s) -> json_loads s = Some v ->
                  positive_stock v
  | _ => True
  end.

(** ** States and texts used in the examples *)

Definition no_files : string -> node := fun _ => Absent.

Definition store (d : dict) (files : string -> node) : state :=
  mkState (PDict d) files [] [] 0.

Definition with_file (file : string) (n : node) (files : string -> node)
  : string -> node :=
  fun q => if (q =? file)%string then n else files q.

(** The text [{"widget": n}]. *)
Definition widget_json (n : string) : string :=
  "{" ++ String PyJson.dquote ("widget" ++ String PyJson.dquote (": " ++ n ++ "}")).

(** ** The demonstration driver

    [main] uses two [Inventory] objects one after the other: [inventory] is
    not touched again once [new_inventory] is constructed, so both live in
    the field [stock_data], the second taking the place of the first.  The
    list [session_logs] is the value threaded through the calls of
    [add_item]. *)

Fixpoint print_all (logs : list message) : M unit :=
  match logs with
  | [] => ret tt
  | log :: logs' => print_out log ;; print_all logs'
  end.

Definition session (logs : option (list message)) : list message :=
  match logs with Some l => l | None => [] end.

(** [main()] *)
Definition main {codec : JsonCodec} : M unit :=
  init ;;
  session_logs <- ret (Some []) ;;
  session_logs <- add_item (PStr "apple") (PInt 10) session_logs ;;
  session_logs <- add_item (PStr "banana") (PInt 15) session_logs ;;
  print_out [Lit (nl ++ "Testing invalid inputs:")] ;;
  session_logs <- add_item (PStr "banana") (PInt (-2)) session_logs ;;
  session_logs <- add_item (PInt 123) (PInt 10) session_logs ;;
  remove_item (PStr "orange") (PInt 1) ;;
  remove_item (PStr "apple") (PInt 3) ;;
  print_data ;;
  apple <- get_qty "apple" ;;
  print_out [Lit "Apple stock: "; Fmt apple] ;;
  low_items <- check_low_items 10 ;;
  print_out [Lit "Low items (threshold=10): "; Fmt (PList (map PStr low_items))] ;;
  save_data "inventory_clean.json" ;;
  print_out [Lit "Loading data into new inventory..."] ;;
  init ;;
  load_data "inventory_clean.json" ;;
  print_data ;;
  print_out [Lit "Session Logs:"] ;;
  print_all (session session_logs).

(** ** Notions used by the further properties *)

(** A mapping whose every value is an integer >= 0. *)
Definition nonneg_stock (sd : pyval) : Prop :=
  exists d, sd = PDict d /\ nonneg_valued d.

Definition is_load (op : operation) : bool :=
  match op with OpLoad _ => true | _ => false end.

(** The value is a [dict]. *)
Definition is_dict (v : pyval) : bool :=
  match v with PDict _ => true | _ => false end.

(** The value is [None], a [str], a [list] or a [dict]: not a number. *)
Definition not_a_number (v : pyval) : bool :=
  match v with
  | PNone | PStr _ | PList _ | PDict _ => true
  | PBool _ | PInt _ => false
  end.

(** A path where a file can be created or overwritten, and read back. *)
Definition ordinary (n : node) : bool :=
  match n with Absent | Regular _ => true | _ => false end.

(** The OSError that saving to the node raises: at [open], or later at the
    write or the close. *)
Definition write_fault (n : node) : option os_kind :=
  match n with
  | Unopenable k | Uncreatable k | Failing k _ => Some k
  | _ => None
  end.

(** * Properties *)

(** ** Dictionaries *)

Lemma dict_lookup_set_same d k v : dict_lookup (dict_set d k v) k = Some v.
Proof.
  induction d as [|[k' v'] d IH]; simpl.
  - now rewrite String.eqb_refl.
  - destruct (k' =? k)%string eqn:E; simpl; rewrite E; auto.
Qed.

Lemma dict_lookup_set_other d k k' v :
  k' <> k -> dict_lookup (dict_set d k v) k' = dict_lookup d k'.
Proof.
  intros Hne. induction d as [|[k0 v0] d IH]; simpl.
  - destruct (String.eqb_spec k k'); congruence.
  - destruct (String.eqb_spec k0 k) as [->|]; simpl.
    + destruct (String.eqb_spec k k'); congruence.
    + now rewrite IH.
Qed.

Lemma dict_set_absent d k v :
  dict_lookup d k = None -> dict_set d k v = d ++ [(k, v)].
Proof.
  induction d as [|[k' v'] d IH]; simpl; auto.
  destruct (k' =? k)%string; [discriminate|].
  intros H. now rewrite IH.
Qed.

Lemma dict_lookup_del_same d k : dict_lookup (dict_del d k) k = None.
Proof.
  induction d as [|[k' v'] d IH]; simpl; auto.
  destruct (k' =? k)%string eqn:E; simpl; auto.
  now rewrite E.
Qed.

Lemma dict_lookup_del_other d k k' :
  k' <> k -> dict_lookup (dict_del d k) k' = dict_lookup d k'.
Proof.
  intros Hne. induction d as [|[k0 v0] d IH]; simpl; auto.
  destruct (String.eqb_spec k0 k) as [->|]; simpl.
  - destruct (String.eqb_spec k k'); congruence.
  - now rewrite IH.
Qed.

Lemma dict_lookup_In d k v : dict_lookup d k = Some v -> In (k, v) d.
Proof.
  induction d as [|[k' v'] d IH]; simpl; [discriminate|].
  destruct (String.eqb_spec k' k) as [->|]; intros H.
  - left. congruence.
  - right. auto.
Qed.

Lemma dict_lookup_None d k : dict_lookup d k = None <-> ~ In k (keys d).
Proof.
  induction d as [|[k' v'] d IH]; simpl.
  - tauto.
  - destruct (String.eqb_spec k' k) as [->|]; split; intros H.
    + discriminate.
    + exfalso. apply H. now left.
    + intros [?|?]; [congruence|]. now apply IH in H.
    + apply IH. intros ?. apply H. now right.
Qed.

Lemma In_dict_set d k v k' v' :
  In (k', v') (dict_set d k v) -> (k' = k /\ v' = v) \/ In (k', v') d.
Proof.
  induction d as [|[k0 v0] d IH]; simpl.
  - intros [H|[]]. left. split; congruence.
  - destruct (String.eqb_spec k0 k) as [->|]; simpl.
    + intros [H|H]; [left; split; congruence | right; now right].
    + intros [H|H]; [right; now left|].
      destruct (IH H) as [?|?]; [now left | right; now right].
Qed.

Lemma In_dict_del d k k' v' :
  In (k', v') (dict_del d k) -> k' <> k /\ In (k', v') d.
Proof.
  unfold dict_del. rewrite filter_In. simpl.
  intros [H1 H2]. split; auto.
  destruct (String.eqb_spec k' k); [discriminate | assumption].
Qed.

(** The keys of a dictionary stay pairwise distinct. *)
Lemma keys_dict_set d k v :
  NoDup (keys d) -> NoDup (keys (dict_set d k v)).
Proof.
  induction d as [|[k0 v0] d IH]; simpl; intros H.
  - constructor; [intros [] | constructor].
  - inversion H as [|? ? Hni Hnd]; subst.
    destruct (String.eqb_spec k0 k) as [->|Hne]; simpl.
    + now constructor.
    + constructor; auto.
      intros Hin. apply Hni. unfold keys in *.
      apply in_map_iff in Hin. destruct Hin as [[k1 v1] [E Hin]]. simpl in E. subst k1.
      apply In_dict_set in Hin. destruct Hin as [[? ?]|Hin]; [congruence|].
      apply in_map_iff. now exists (k0, v1).
Qed.

Lemma keys_dict_del d k :
  NoDup (keys d) -> NoDup (keys (dict_del d k)).
Proof.
  induction d as [|[k0 v0] d IH]; simpl; intros H; auto.
  inversion H as [|? ? Hni Hnd]; subst.
  destruct (k0 =? k)%string; simpl; auto.
  constructor; auto.
  intros Hin. apply Hni. unfold keys in *.
  apply in_map_iff in Hin. destruct Hin as [[k1 v1] [E Hin]]. simpl in E. subst k1.
  apply In_dict_del in Hin. apply in_map_iff. now exists (k0, v1).
Qed.

(** ** Validation *)

Lemma check_item_valid item k :
  check_item item = Some k <-> item = PStr k /\ k <> "".
Proof.
  destruct item; simpl; try (split; [discriminate | intros [? _]; discriminate]).
  destruct (String.eqb_spec s ""); simpl; split.
  - discriminate.
  - intros [E Hne]. inversion E; subst. congruence.
  - intros E. inversion E; subst. auto.
  - intros [E _]. congruence.
Qed.

Lemma check_item_None item : check_item item = None <-> ~ valid_item item.
Proof.
  split.
  - intros H [k Hk]. apply check_item_valid in Hk. congruence.
  - intros H. destruct (check_item item) as [k|] eqn:E; auto.
    exfalso. apply H. exists k. now apply check_item_valid.
Qed.

Lemma check_qty_valid qty n :
  check_qty qty = Some n <-> int_value qty = Some n /\ 0 <= n.
Proof.
  unfold check_qty. destruct (int_value qty) as [m|].
  - destruct (Z.ltb_spec m 0); split.
    + discriminate.
    + intros [E ?]. inversion E; subst. lia.
    + intros E. inversion E; subst. split; auto.
    + intros [E _]. assumption.
  - split; [discriminate | intros [? _]; discriminate].
Qed.

Lemma check_qty_None qty : check_qty qty = None <-> ~ valid_qty qty.
Proof.
  split.
  - intros H [n Hn]. apply check_qty_valid in Hn. congruence.
  - intros H. destruct (check_qty qty) as [n|] eqn:E; auto.
    exfalso. apply H. exists n. now apply check_qty_valid.
Qed.

(** ** The codec [PyJson] decodes what it encodes *)

(** Induction over values, through lists and dictionaries. *)
Lemma pyval_nested_ind (P : pyval -> Prop) :
  P PNone ->
  (forall b, P (PBool b)) ->
  (forall z, P (PInt z)) ->
  (forall s, P (PStr s)) ->
  (forall l, Forall P l -> P (PList l)) ->
  (forall d, Forall (fun kv => P (snd kv)) d -> P (PDict d)) ->
  forall v, P v.
Proof.
  intros HN HB HI HS HL HD.
  fix IH 1. intros [| b | z | s | l | d].
  - exact HN.
  - apply HB.
  - apply HI.
  - apply HS.
  - apply HL. induction l as [|x l IHl]; constructor; [apply IH | exact IHl].
  - apply HD. induction d as [|[k x] d IHd]; constructor; [apply IH | exact IHd].
Qed.

Lemma distinct_NoDup l : distinct l = true -> NoDup l.
Proof.
  induction l as [|k l IH]; simpl; intros H; constructor.
  - apply andb_prop in H. destruct H as [H _].
    intros Hin. apply negb_true_iff in H.
    assert (existsb (String.eqb k) l = true)
      by (apply existsb_exists; exists k; split; [assumption | apply String.eqb_refl]).
    congruence.
  - apply andb_prop in H. tauto.
Qed.

Module PyJsonFacts.
Import PyJson.


(** *** White space *)

Lemma skip_ws_spaces n r : skip_ws (repeat " "%char n ++ r) = skip_ws r.
Proof. induction n; simpl; auto. Qed.

Lemma skip_ws_newline_indent n r : skip_ws (newline_indent n ++ r) = skip_ws r.
Proof. unfold newline_indent. simpl. apply skip_ws_spaces. Qed.

(** *** String literals *)

Lemma scan_string_escape_char c r :
  scan_string (escape_char c ++ r) = cons_char c (scan_string r).
Proof.
  destruct c as [[] [] [] [] [] [] [] []]; reflexivity.
Qed.

Lemma scan_string_escape cs r :
  scan_string (flat_map escape_char cs ++ dquote :: r) = Some (cs, r).
Proof.
  induction cs as [|c cs IH]; simpl.
  - reflexivity.
  - rewrite <- app_assoc, scan_string_escape_char, IH. reflexivity.
Qed.

Lemma scan_string_encode_str s r :
  exists t, encode_str s ++ r = dquote :: t
            /\ scan_string t = Some (chars s, r).
Proof.
  unfold encode_str. eexists. split.
  - simpl. reflexivity.
  - rewrite <- app_assoc. simpl. apply scan_string_escape.
Qed.

(** *** Integer literals *)

Lemma to_uint_head p :
  match Pos.to_uint p with
  | Decimal.Nil | Decimal.D0 _ => False
  | _ => True
  end.
Proof.
  assert (Hn : Decimal.unorm (Pos.to_uint p) = Pos.to_uint p).
  { rewrite <- DecimalPos.Unsigned.to_of, DecimalPos.Unsigned.of_to. reflexivity. }
  pose proof (DecimalPos.Unsigned.to_uint_nonzero p) as Hz.
  destruct (Pos.to_uint p) as [|d| | | | | | | | | ] eqn:E; auto.
  rewrite DecimalFacts.unorm_D0 in Hn.
    destruct d as [|d'| | | | | | | | | ] eqn:Ed;
      try (assert (Hne : d <> Decimal.Nil) by (subst d; discriminate);
           pose proof (DecimalFacts.nb_digits_unorm d Hne) as Hlen;
           subst d; rewrite Hn in Hlen; simpl in Hlen; lia).
  apply Hz. reflexivity.
Qed.

Lemma scan_digits_uint_chars d r :
  follow r = true ->
  scan_digits (uint_chars d ++ r) = (d, r).
Proof.
  intros Hr. induction d; simpl; try (rewrite IHd; reflexivity).
  destruct r as [|c r']; simpl; auto.
  simpl in Hr. destruct (scan_digits r') as [d' rest'].
  apply orb_prop in Hr.
  destruct Hr as [H|H]; apply Ascii.eqb_eq in H; subst c; reflexivity.
Qed.

Lemma follow_not_number r : follow r = true -> continues_number r = false.
Proof.
  destruct r as [|c r]; simpl; auto. intros H.
  apply orb_prop in H.
  destruct H as [H|H]; apply Ascii.eqb_eq in H; subst c; reflexivity.
Qed.

Lemma canonical_to_int z :
  match Z.to_int z with
  | Decimal.Pos d => canonical d
  | Decimal.Neg d => canonical d
  end.
Proof.
  destruct z as [|p|p]; simpl; auto;
    pose proof (to_uint_head p) as H;
    destruct (Pos.to_uint p); simpl; auto; contradiction.
Qed.

Lemma scan_int_pos d r :
  canonical d -> follow r = true ->
  scan_int (uint_chars d ++ r) = Some (Z.of_int (Decimal.Pos d), r).
Proof.
  intros Hd Hr. unfold scan_int.
  assert (Hsame : match uint_chars d ++ r with
                  | c :: r0 => if (c =? "-")%char then (true, r0)
                               else (false, uint_chars d ++ r)
                  | [] => (false, uint_chars d ++ r)
                  end = (false, uint_chars d ++ r)).
  { destruct d; simpl; try reflexivity. contradiction. }
  rewrite Hsame, scan_digits_uint_chars by assumption.
  rewrite follow_not_number by assumption.
  destruct d as [|d'| | | | | | | | | ]; try contradiction; try reflexivity.
  destruct d'; try contradiction; reflexivity.
Qed.

Lemma scan_int_neg d r :
  canonical d -> follow r = true ->
  scan_int ("-"%char :: uint_chars d ++ r) = Some (Z.of_int (Decimal.Neg d), r).
Proof.
  intros Hd Hr. unfold scan_int.
  replace (("-"%char =? "-"%char)%char) with true by reflexivity.
  cbv iota beta.
  rewrite scan_digits_uint_chars by assumption.
  rewrite follow_not_number by assumption.
  destruct d as [|d'| | | | | | | | | ]; try contradiction; try reflexivity.
  destruct d'; try contradiction; reflexivity.
Qed.

Lemma scan_int_encode z r :
  follow r = true ->
  scan_int (encode_int z ++ r) = Some (z, r).
Proof.
  intros Hr. rewrite <- (DecimalZ.of_to z) at 2.
  pose proof (canonical_to_int z) as Hc.
  unfold encode_int. destruct (Z.to_int z) as [d|d].
  - now apply scan_int_pos.
  - now apply scan_int_neg.
Qed.

(** *** Values *)

Lemma scan_items_eq fuel s acc :
  scan_items (S fuel) s acc =
  match scan_value fuel s with
  | Some (v, rest) =>
      match skip_ws rest with
      | c :: r =>
          if (c =? "]")%char then Some (PList (acc ++ [v]), r)
          else if (c =? ",")%char
               then scan_items fuel (skip_ws r) (acc ++ [v])
               else None
      | [] => None
      end
  | None => None
  end.
Proof. reflexivity. Qed.

Lemma scan_members_eq fuel r acc :
  scan_members (S fuel) (dquote :: r) acc =
  match scan_string r with
  | Some (k, rest) =>
      match skip_ws rest with
      | c1 :: r1 =>
          if (c1 =? ":")%char then
            match scan_value fuel (skip_ws r1) with
            | Some (v, rest') =>
                let acc' := dict_set acc (string_of_list_ascii k) v in
                match skip_ws rest' with
                | c2 :: r2 =>
                    if (c2 =? "}")%char then Some (PDict acc', r2)
                    else if (c2 =? ",")%char
                         then scan_members fuel (skip_ws r2) acc'
                         else None
                | [] => None
                end
            | None => None
            end
          else None
      | [] => None
      end
  | None => None
  end.
Proof. reflexivity. Qed.

Lemma scan_value_number fuel c t :
  In c (chars "-0123456789") ->
  scan_value (S fuel) (c :: t) =
  match scan_int (c :: t) with
  | Some (z, rest) => Some (PInt z, rest)
  | None => None
  end.
Proof.
  intros H. simpl in H.
  repeat (destruct H as [<-|H]; [reflexivity|]). contradiction.
Qed.

Lemma encode_int_head z :
  exists c t, encode_int z = c :: t /\ In c (chars "-0123456789").
Proof.
  pose proof (canonical_to_int z) as Hc. unfold encode_int.
  destruct (Z.to_int z) as [d|d].
  - destruct d; try contradiction; simpl; do 2 eexists;
      (split; [reflexivity|]); simpl; tauto.
  - do 2 eexists. split; [reflexivity|]. simpl. tauto.
Qed.

Lemma encode_opens level v r : opens (encode level v ++ r).
Proof.
  destruct v as [| [] | z | s | [|x l] | [|kx d]]; simpl; auto.
  destruct (encode_int_head z) as [c [t [-> Hc]]]. simpl in *.
  repeat (destruct Hc as [<-|Hc]; [auto|]). contradiction.
Qed.

Lemma skip_ws_opens s : opens s -> skip_ws s = s.
Proof. destruct s as [|c s]; simpl; [tauto|]. now intros [-> _]. Qed.

Lemma follow_comma r : follow (","%char :: r) = true.
Proof. reflexivity. Qed.

Lemma follow_newline_indent n r : follow (newline_indent n ++ r) = true.
Proof. reflexivity. Qed.

Lemma scan_items_encode level l :
  Forall decodes l ->
  forall x acc fuel rest,
    decodes x ->
    (List.length (encode (S level) x ++ flat_map (item_text level) l) + 1 < fuel)%nat ->
    scan_items fuel
      (encode (S level) x ++ flat_map (item_text level) l
       ++ newline_indent level ++ "]"%char :: rest) acc
    = Some (PList (acc ++ x :: l), rest).
Proof.
  induction 1 as [|y l Hy Hl IH]; intros x acc fuel rest Hx Hfuel;
    (destruct fuel as [|fuel]; [lia|]); rewrite scan_items_eq;
    rewrite length_app in Hfuel.
  - cbn [flat_map app] in *.
    rewrite Hx by (try apply follow_newline_indent; simpl in Hfuel; lia).
    rewrite skip_ws_newline_indent. reflexivity.
  - cbn [flat_map] in *. unfold item_text at 1. unfold item_text at 1 in Hfuel.
    rewrite <- !app_assoc. rewrite <- !app_comm_cons.
    rewrite Hx by (try apply follow_comma; lia).
    cbn [skip_ws is_ws]. cbn -[skip_ws scan_items newline_indent encode].
    rewrite <- app_assoc, skip_ws_newline_indent.
    rewrite skip_ws_opens by apply encode_opens.
    rewrite IH; auto.
    + now rewrite <- app_assoc.
    + rewrite !length_app in *. cbn [List.length] in Hfuel.
      rewrite !length_app in Hfuel. lia.
Qed.

Lemma encode_str_opens s r : opens (encode_str s ++ r).
Proof. simpl. auto. Qed.

Lemma keys_app (a b : dict) : keys (a ++ b) = keys a ++ keys b.
Proof. apply map_app. Qed.

(** One member: the key, the colon, the value. *)
Lemma scan_members_step fuel k R acc :
  opens R ->
  scan_members (S fuel) (encode_str k ++ chars ": " ++ R) acc =
  match scan_value fuel R with
  | Some (v, rest') =>
      match skip_ws rest' with
      | c2 :: r2 =>
          if (c2 =? "}")%char then Some (PDict (dict_set acc k v), r2)
          else if (c2 =? ",")%char
               then scan_members fuel (skip_ws r2) (dict_set acc k v)
               else None
      | [] => None
      end
  | None => None
  end.
Proof.
  intros HR.
  destruct (scan_string_encode_str k (chars ": " ++ R)) as [t [Et Ht]].
  rewrite Et, scan_members_eq, Ht.
  change (skip_ws (chars ": " ++ R)) with (":"%char :: " "%char :: R).
  cbv iota beta.
  change ((":"%char =? ":"%char)%char) with true. cbv iota.
  change (skip_ws (" "%char :: R)) with (skip_ws R).
  rewrite (skip_ws_opens R HR).
  unfold chars. rewrite string_of_list_ascii_of_string. reflexivity.
Qed.

Lemma scan_members_encode level d :
  Forall (fun ky => decodes (snd ky)) d ->
  forall kx acc fuel rest,
    decodes (snd kx) ->
    NoDup (keys (acc ++ kx :: d)) ->
    (List.length (first_member level kx ++ flat_map (member_text level) d) + 1
     < fuel)%nat ->
    scan_members fuel
      (first_member level kx ++ flat_map (member_text level) d
       ++ newline_indent level ++ "}"%char :: rest) acc
    = Some (PDict (acc ++ kx :: d), rest).
Proof.
  induction 1 as [|ky d Hy Hd IH]; intros [k x] acc fuel rest Hx Hnd Hfuel;
    (destruct fuel as [|fuel]; [lia|]);
    unfold first_member in *; cbn [fst snd] in *;
    rewrite !length_app in Hfuel;
    rewrite <- !app_assoc;
    rewrite scan_members_step by apply encode_opens;
    assert (Habs : dict_set acc k x = acc ++ [(k, x)])
      by (apply dict_set_absent, dict_lookup_None;
          rewrite keys_app in Hnd; apply NoDup_remove_2 in Hnd;
          intros Hin; apply Hnd, in_or_app; now left).
  - cbn [flat_map app List.length] in *.
    rewrite Hx by (try apply follow_newline_indent; lia).
    rewrite skip_ws_newline_indent, Habs. reflexivity.
  - cbn [flat_map] in *. unfold member_text at 1. unfold member_text at 1 in Hfuel.
    rewrite <- !app_assoc. rewrite <- !app_comm_cons.
    rewrite Hx by (try apply follow_comma; lia).
    change (skip_ws (","%char :: ?X)) with (","%char :: X).
    cbv iota beta.
    change ((","%char =? "}"%char)%char) with false.
    change ((","%char =? ","%char)%char) with true.
    cbv iota.
    rewrite <- app_assoc, skip_ws_newline_indent.
    rewrite <- !app_assoc.
    rewrite skip_ws_opens by apply encode_str_opens.
    rewrite Habs.
    specialize (IH ky (acc ++ [(k, x)]) fuel rest Hy).
    unfold first_member in IH. rewrite <- !app_assoc in IH.
    rewrite IH.
    + reflexivity.
    + exact Hnd.
    + rewrite !length_app in *. cbn [List.length] in Hfuel.
      rewrite !length_app in Hfuel. lia.
Qed.

Lemma forallb_Forall {A} (f : A -> bool) (P : A -> Prop) l :
  Forall (fun x => f x = true -> P x) l ->
  forallb f l = true -> Forall P l.
Proof.
  induction 1 as [|x l Hx Hl IH]; simpl; intros H; constructor;
    apply andb_prop in H; destruct H; auto.
Qed.

Lemma encode_decodes v : well_formed v = true -> decodes v.
Proof.
  induction v as [| b | z | s | l IH | d IH] using pyval_nested_ind;
    intros Hwf level fuel rest Hfuel Hrest;
    (destruct fuel as [|fuel]; [lia|]).
  - reflexivity.
  - destruct b; reflexivity.
  - cbn [encode].
    destruct (encode_int_head z) as [c [t [E Hc]]].
    pose proof (scan_int_encode z rest Hrest) as Hs.
    rewrite E in *. cbn [app] in *.
    rewrite (scan_value_number fuel c (t ++ rest) Hc), Hs. reflexivity.
  - cbn [encode].
    destruct (scan_string_encode_str s rest) as [t [Et Ht]].
    rewrite Et. cbn [scan_value].
    change ((dquote =? dquote)%char) with true. cbv iota.
    rewrite Ht. unfold chars. now rewrite string_of_list_ascii_of_string.
  - destruct l as [|x l]; [reflexivity|].
    cbn [well_formed forallb] in Hwf. apply andb_prop in Hwf.
    destruct Hwf as [Hx Hl]. inversion IH as [|? ? IHx IHl]; subst.
    cbn [encode] in *. rewrite <- !app_comm_cons.
    cbn [scan_value].
    change (("["%char =? dquote)%char) with false.
    change (("["%char =? "{"%char)%char) with false.
    change (("["%char =? "["%char)%char) with true. cbv iota.
    rewrite <- !app_assoc. rewrite skip_ws_newline_indent.
    change (fun y : pyval =>
              ","%char :: newline_indent (S level) ++ encode (S level) y)
      with (item_text level) in *.
    pose proof (encode_opens (S level) x
                  (flat_map (item_text level) l ++
                   newline_indent level ++ ["]"%char] ++ rest)) as Ho.
    rewrite (skip_ws_opens _ Ho).
    destruct (encode (S level) x ++ _) as [|c r] eqn:E in Ho |- *; [contradiction|].
    destruct Ho as [_ [-> _]]. rewrite <- E.
    pose proof (scan_items_encode level l (forallb_Forall _ _ _ IHl Hl)
                  x [] fuel rest (IHx Hx)) as Hi.
    cbn [app] in Hi |- *. apply Hi.
    cbn [List.length] in Hfuel. rewrite !length_app in *.
    cbn [List.length] in Hfuel. lia.
  - destruct d as [|kx d]; [reflexivity|].
    cbn [well_formed forallb keys map distinct] in Hwf.
    apply andb_prop in Hwf. destruct Hwf as [Hnd Hwf].
    apply andb_prop in Hwf. destruct Hwf as [Hx Hd].
    inversion IH as [|? ? IHx IHd]; subst.
    cbn [encode] in *. rewrite <- !app_comm_cons.
    cbn [scan_value].
    change (("{"%char =? dquote)%char) with false.
    change (("{"%char =? "{"%char)%char) with true. cbv iota.
    rewrite <- !app_assoc. rewrite skip_ws_newline_indent.
    change (fun ky : string * pyval =>
              ","%char :: newline_indent (S level) ++ encode_str (fst ky)
              ++ chars ": " ++ encode (S level) (snd ky))
      with (member_text level) in *.
    pose proof (encode_str_opens (fst kx)
                  (chars ": " ++ encode (S level) (snd kx) ++
                   flat_map (member_text level) d ++
                   newline_indent level ++ ["}"%char] ++ rest)) as Ho.
    rewrite (skip_ws_opens _ Ho).
    destruct (encode_str (fst kx) ++ _) as [|c r] eqn:E in Ho |- *; [contradiction|].
    destruct Ho as [_ [_ ->]]. rewrite <- E.
    pose proof (scan_members_encode level d
                  (forallb_Forall (fun ky => well_formed (snd ky))
                                  (fun ky => decodes (snd ky)) _ IHd Hd)
                  kx [] fuel rest (IHx Hx)) as Hm.
    unfold first_member in Hm. rewrite <- !app_assoc in Hm.
    cbn [app] in Hm |- *. apply Hm.
    + apply distinct_NoDup. cbn [keys map distinct]. now rewrite Hnd.
    + cbn [List.length] in Hfuel. rewrite !length_app in *.
      cbn [List.length] in Hfuel. lia.
Qed.

(** [PyJson.loads] inverts [PyJson.dumps] on well-formed values. *)
Lemma loads_dumps v : well_formed v = true -> loads (dumps v) = Some v.
Proof.
  intros Hwf. unfold loads, dumps, chars.
  rewrite list_ascii_of_string_of_list_ascii.
  pose proof (encode_opens 0 v []) as Ho. rewrite app_nil_r in Ho.
  rewrite (skip_ws_opens _ Ho).
  pose proof (encode_decodes v Hwf 0%nat (S (List.length (encode 0 v))) []) as H.
  rewrite app_nil_r in H. rewrite H; auto.
Qed.
End PyJsonFacts.

#[export] Instance py_json_round_trip : JsonRoundTrip py_json.
Proof. exact PyJsonFacts.loads_dumps. Qed.

(** ** Running the methods *)

Ltac run :=
  cbv beta delta [bind ret raise lift try_except get_stock put_stock eprint
                  print_out datetime_now] iota; cbn [fst snd].

Ltac step :=
  cbn -[dict_lookup dict_set dict_del dict_mem Z.leb Z.ltb Z.add Z.sub].

(** A successful [add_item], in full. *)
Lemma add_item_ok st d k n qty old logs :
  stock_data st = PDict d ->
  k <> "" ->
  check_qty qty = Some n ->
  int_value (match dict_lookup d k with Some v => v | None => PInt 0 end) = Some old ->
  add_item (PStr k) qty logs st =
    (Ret (Some (match logs with None => [] | Some l => l end
                ++ [added_msg (clock st) (PStr k) qty])),
     set_stock (PDict (dict_set d k (PInt (old + n)))) st).
Proof.
  intros Hsd Hk Hq Hold.
  unfold add_item.
  replace (check_item (PStr k)) with (Some k)
    by (symmetry; apply check_item_valid; auto).
  rewrite Hq. run. rewrite Hsd. cbn [py_get]. unfold py_add_int.
  rewrite Hold. cbn [py_setitem]. reflexivity.
Qed.

Lemma get_qty_dict st d k :
  stock_data st = PDict d ->
  get_qty k st =
    (Ret (match dict_lookup d k with Some v => v | None => PInt 0 end), st).
Proof. intros H. unfold get_qty. run. now rewrite H. Qed.

Lemma get_qty_Ret_inv st k v st' :
  get_qty k st = (Ret v, st') ->
  st' = st /\ exists d, stock_data st = PDict d
              /\ v = match dict_lookup d k with Some v => v | None => PInt 0 end.
Proof.
  unfold get_qty. run. destruct (stock_data st) eqn:E; simpl; try discriminate.
  intros H. inversion H; subst. split; auto. now exists d.
Qed.

(** C1. For every store state and every valid input (item a non-empty
    string, qty an integer >= 0), [add_item item qty] returns normally and
    raises [get_qty item] by exactly [qty] over its value before the call;
    an absent item gets a new entry, last in the mapping, holding [qty]. *)
Theorem add_item_increases_quantity :
  forall (st : state) (k : string) (qty : pyval) (n q : Z)
         (logs : option (list message)),
    k <> "" ->
    int_value qty = Some n -> 0 <= n ->
    get_qty k st = (Ret (PInt q), st) ->
    exists logs' st',
      add_item (PStr k) qty logs st = (Ret logs', st')
      /\ get_qty k st' = (Ret (PInt (q + n)), st')
      /\ (forall d, stock_data st = PDict d -> dict_lookup d k = None ->
            q = 0 /\ stock_data st' = PDict (d ++ [(k, PInt n)])).
Proof.
  intros st k qty n q logs Hk Hq Hn Hget.
  apply get_qty_Ret_inv in Hget. destruct Hget as [_ [d [Hsd Hv]]].
  assert (Hc : check_qty qty = Some n) by (apply check_qty_valid; auto).
  assert (Hold : int_value (match dict_lookup d k with
                            | Some v => v | None => PInt 0 end) = Some q)
    by (rewrite <- Hv; reflexivity).
  eexists. eexists. split; [apply (add_item_ok st d k n qty q logs); auto|].
  split.
  - rewrite (get_qty_dict _ (dict_set d k (PInt (q + n)))) by reflexivity.
    now rewrite dict_lookup_set_same.
  - intros d' Hd' Habs. rewrite Hsd in Hd'. inversion Hd'; subst d'.
    rewrite Habs in Hv. inversion Hv; subst q. split; auto.
    simpl. now rewrite dict_set_absent.
Qed.

Lemma add_item_increases_quantity_witness :
  exists logs' st',
    add_item (PStr "apple") (PInt 10) None
             (mkState (PDict [("banana", PInt 15)]) (fun _ => Absent) [] [] 0)
    = (Ret logs', st')
    /\ get_qty "apple" st' = (Ret (PInt (0 + 10)), st')
    /\ (forall d, PDict [("banana", PInt 15)] = PDict d ->
          dict_lookup d "apple" = None ->
          0 = 0 /\ stock_data st' = PDict (d ++ [("apple", PInt 10)])).
Proof.
  apply (add_item_increases_quantity
           (mkState (PDict [("banana", PInt 15)]) (fun _ => Absent) [] [] 0)
           "apple" (PInt 10) 10 0 None).
  - discriminate.
  - reflexivity.
  - lia.
  - reflexivity.
Defined.

(** ** Rejected input *)

Lemma add_item_bad_item st item qty logs :
  ~ valid_item item ->
  add_item item qty logs st = (Ret logs, push_stderr (bad_item_msg item) st).
Proof.
  intros H. apply check_item_None in H. unfold add_item. now rewrite H.
Qed.

Lemma remove_item_bad_item st item qty :
  ~ valid_item item ->
  remove_item item qty st = (Ret tt, push_stderr (bad_item_msg item) st).
Proof.
  intros H. apply check_item_None in H. unfold remove_item. now rewrite H.
Qed.

Lemma add_item_bad_qty st item qty logs :
  valid_item item -> ~ valid_qty qty ->
  add_item item qty logs st = (Ret logs, push_stderr (bad_qty_msg qty) st).
Proof.
  intros [k Hk] H. apply check_item_valid in Hk. apply check_qty_None in H.
  unfold add_item. now rewrite Hk, H.
Qed.

Lemma remove_item_bad_qty st item qty :
  valid_item item -> ~ valid_qty qty ->
  remove_item item qty st = (Ret tt, push_stderr (bad_qty_msg qty) st).
Proof.
  intros [k Hk] H. apply check_item_valid in Hk. apply check_qty_None in H.
  unfold remove_item. now rewrite Hk, H.
Qed.

Lemma valid_item_dec item : valid_item item \/ ~ valid_item item.
Proof.
  destruct (check_item item) as [k|] eqn:E.
  - left. exists k. now apply check_item_valid.
  - right. now apply check_item_None.
Qed.

(** C7. In every store state, [add_item] and [remove_item] called with an
    invalid item (empty or not a string) or an invalid quantity (negative or
    not an integer) return at once: one line starting with [Error:] goes to
    the error channel and nothing else changes (the mapping, the files, the
    log list of [add_item]); no exception is raised. *)
Theorem invalid_input_rejected :
  forall (st : state) (item qty : pyval) (logs : option (list message)),
    ~ valid_item item \/ ~ valid_qty qty ->
    exists m : message,
      starts_with "Error:" m = true
      /\ add_item item qty logs st = (Ret logs, push_stderr m st)
      /\ remove_item item qty st = (Ret tt, push_stderr m st)
      /\ stock_data (push_stderr m st) = stock_data st.
Proof.
  intros st item qty logs H.
  destruct (valid_item_dec item) as [Hi|Hi].
  - destruct H as [H|H]; [contradiction|].
    exists (bad_qty_msg qty). repeat split.
    + now apply add_item_bad_qty.
    + now apply remove_item_bad_qty.
  - exists (bad_item_msg item). repeat split.
    + now apply add_item_bad_item.
    + now apply remove_item_bad_item.
Qed.

Lemma invalid_input_rejected_witness :
  exists m : message,
    starts_with "Error:" m = true
    /\ add_item (PStr "banana") (PInt (-2)) (Some [])
         (mkState (PDict [("banana", PInt 15)]) (fun _ => Absent) [] [] 0)
       = (Ret (Some []),
          push_stderr m (mkState (PDict [("banana", PInt 15)]) (fun _ => Absent) [] [] 0))
    /\ remove_item (PStr "banana") (PInt (-2))
         (mkState (PDict [("banana", PInt 15)]) (fun _ => Absent) [] [] 0)
       = (Ret tt,
          push_stderr m (mkState (PDict [("banana", PInt 15)]) (fun _ => Absent) [] [] 0))
    /\ stock_data
         (push_stderr m (mkState (PDict [("banana", PInt 15)]) (fun _ => Absent) [] [] 0))
       = PDict [("banana", PInt 15)].
Proof.
  apply (invalid_input_rejected
           (mkState (PDict [("banana", PInt 15)]) (fun _ => Absent) [] [] 0)
           (PStr "banana") (PInt (-2)) (Some [])).
  right. intros [n [E Hn]]. simpl in E. inversion E; subst. lia.
Defined.

(** ** Removal *)

Lemma remove_item_absent st d k qty :
  stock_data st = PDict d ->
  k <> "" -> valid_qty qty ->
  ~ In k (keys d) ->
  remove_item (PStr k) qty st
  = (Ret tt, push_stderr
               (remove_error_msg (KeyError (not_in_stock_msg (PStr k)))) st).
Proof.
  intros Hsd Hk [n Hq] Habs.
  apply check_qty_valid in Hq. apply dict_lookup_None in Habs.
  unfold remove_item.
  replace (check_item (PStr k)) with (Some k)
    by (symmetry; apply check_item_valid; auto).
  rewrite Hq. run. rewrite Hsd. cbn [py_contains]. unfold dict_mem.
  rewrite Habs. reflexivity.
Qed.

(** C4. In every store state whose mapping does not hold [item], and for
    every valid [item] and [qty], [remove_item item qty] returns normally,
    prints the line [Error removing item: ] followed by the KeyError text
    [Item '<item>' not in stock. Cannot remove.] on the error channel, and
    changes nothing else: the mapping is the same. *)
Theorem remove_absent_item_reports :
  forall (st : state) (d : dict) (k : string) (qty : pyval),
    stock_data st = PDict d ->
    k <> "" -> valid_qty qty ->
    ~ In k (keys d) ->
    remove_item (PStr k) qty st
    = (Ret tt,
       push_stderr [Lit "Error removing item: ";
                    FmtExn (KeyError [Lit "Item '"; Fmt (PStr k);
                                      Lit "' not in stock. Cannot remove."])] st)
    /\ stock_data (snd (remove_item (PStr k) qty st)) = PDict d.
Proof.
  intros st d k qty Hsd Hk Hq Habs.
  rewrite (remove_item_absent st d k qty Hsd Hk Hq Habs).
  split; [reflexivity | exact Hsd].
Qed.

Lemma remove_absent_item_reports_witness :
  remove_item (PStr "orange") (PInt 1)
    (mkState (PDict [("apple", PInt 10)]) (fun _ => Absent) [] [] 0)
  = (Ret tt,
     push_stderr [Lit "Error removing item: ";
                  FmtExn (KeyError [Lit "Item '"; Fmt (PStr "orange");
                                    Lit "' not in stock. Cannot remove."])]
       (mkState (PDict [("apple", PInt 10)]) (fun _ => Absent) [] [] 0))
  /\ stock_data
       (snd (remove_item (PStr "orange") (PInt 1)
               (mkState (PDict [("apple", PInt 10)]) (fun _ => Absent) [] [] 0)))
     = PDict [("apple", PInt 10)].
Proof.
  apply (remove_absent_item_reports
           (mkState (PDict [("apple", PInt 10)]) (fun _ => Absent) [] [] 0)
           [("apple", PInt 10)] "orange" (PInt 1)).
  - reflexivity.
  - discriminate.
  - exists 1. split; [reflexivity | lia].
  - simpl. intros [H|[]]. discriminate.
Defined.

Lemma dict_del_set d k v : dict_del (dict_set d k v) k = dict_del d k.
Proof.
  induction d as [|[k' v'] d IH]; simpl.
  - now rewrite String.eqb_refl.
  - destruct (k' =? k)%string eqn:E; simpl; rewrite E; simpl; congruence.
Qed.

(** A removal that empties the entry, in full. *)
Lemma remove_item_deletes st d k n qty v q :
  stock_data st = PDict d ->
  k <> "" ->
  check_qty qty = Some n ->
  dict_lookup d k = Some v ->
  int_value v = Some q ->
  q - n <= 0 ->
  remove_item (PStr k) qty st = (Ret tt, set_stock (PDict (dict_del d k)) st).
Proof.
  intros Hsd Hk Hq Hv Hint Hle.
  unfold remove_item.
  replace (check_item (PStr k)) with (Some k)
    by (symmetry; apply check_item_valid; auto).
  rewrite Hq. run. rewrite Hsd. cbn [py_contains]. unfold dict_mem.
  rewrite Hv. step. rewrite Hsd. step. rewrite Hv. unfold py_sub_int.
  rewrite Hint. step. rewrite dict_lookup_set_same. step.
  destruct (Z.leb_spec (q - n) 0); [|lia].
  step. unfold dict_mem. rewrite dict_lookup_set_same.
  rewrite dict_del_set. reflexivity.
Qed.

(** A removal that leaves stock, in full. *)
Lemma remove_item_decrements st d k n qty v q :
  stock_data st = PDict d ->
  k <> "" ->
  check_qty qty = Some n ->
  dict_lookup d k = Some v ->
  int_value v = Some q ->
  0 < q - n ->
  remove_item (PStr k) qty st
  = (Ret tt, set_stock (PDict (dict_set d k (PInt (q - n)))) st).
Proof.
  intros Hsd Hk Hq Hv Hint Hlt.
  unfold remove_item.
  replace (check_item (PStr k)) with (Some k)
    by (symmetry; apply check_item_valid; auto).
  rewrite Hq. run. rewrite Hsd. cbn [py_contains]. unfold dict_mem.
  rewrite Hv. step. rewrite Hsd. step. rewrite Hv. unfold py_sub_int.
  rewrite Hint. step. rewrite dict_lookup_set_same. step.
  destruct (Z.leb_spec (q - n) 0); [lia|]. reflexivity.
Qed.

(** ** The report *)

Lemma print_items_lines d st :
  print_items d st = (Ret tt, push_lines (item_lines d) st).
Proof.
  revert st. induction d as [|[k v] d IH]; intros st; simpl.
  - unfold ret, push_lines. rewrite app_nil_r. now destruct st.
  - run. rewrite IH. unfold push_lines, push_stdout. simpl.
    now rewrite <- app_assoc.
Qed.

Lemma push_stdout_lines m st : push_stdout m st = push_lines [m] st.
Proof. reflexivity. Qed.

Lemma push_lines_lines a b st :
  push_lines a (push_lines b st) = push_lines (b ++ a) st.
Proof. unfold push_lines. simpl. now rewrite app_assoc. Qed.

Lemma print_data_dict st d :
  stock_data st = PDict d ->
  print_data st = (Ret tt, push_lines (report d) st).
Proof.
  intros Hsd. unfold print_data. run. rewrite !push_stdout_lines.
  change (stock_data (push_lines _ st)) with (stock_data st). rewrite Hsd.
  destruct d as [|kv d].
  - cbn [truthy negb]. rewrite !push_stdout_lines, !push_lines_lines.
    reflexivity.
  - cbn [truthy negb py_items]. rewrite print_items_lines.
    rewrite !push_stdout_lines, !push_lines_lines.
    unfold report. now rewrite app_assoc.
Qed.

Lemma report_shows d k line :
  In line (report d) -> shows k line -> In k (keys d).
Proof.
  unfold report, shows, item_line. intros Hin [qty ->].
  apply in_app_or in Hin. destruct Hin as [[H|[]]|Hin]; [discriminate|].
  apply in_app_or in Hin. destruct Hin as [Hin|[H|[]]]; [|discriminate].
  destruct d as [|kv d]; [destruct Hin as [H|[]]; discriminate|].
  unfold item_lines in Hin. apply in_map_iff in Hin.
  destruct Hin as [[k' v'] [E Hin]]. unfold item_line in E. simpl in E.
  inversion E; subst. unfold keys. apply in_map_iff. now exists (k, qty).
Qed.

(** C5. In every store state that holds [item] with an integer quantity,
    and for every valid [qty] with stored quantity - [qty] <= 0,
    [remove_item item qty] deletes the entry (nothing is kept at zero):
    the mapping is the old one without [item], [get_qty item] then returns
    0, and the report printed by [print_data] has no line for [item]. *)
Theorem remove_to_zero_deletes :
  forall (st : state) (d : dict) (k : string) (qty : pyval) (n q : Z),
    stock_data st = PDict d ->
    k <> "" ->
    int_value qty = Some n -> 0 <= n ->
    dict_lookup d k = Some (PInt q) ->
    q - n <= 0 ->
    exists st',
      remove_item (PStr k) qty st = (Ret tt, st')
      /\ stock_data st' = PDict (dict_del d k)
      /\ ~ In k (keys (dict_del d k))
      /\ get_qty k st' = (Ret (PInt 0), st')
      /\ exists lines,
           print_data st' = (Ret tt, push_lines lines st')
           /\ forall line, In line lines -> ~ shows k line.
Proof.
  intros st d k qty n q Hsd Hk Hq Hn Hv Hle.
  assert (Hc : check_qty qty = Some n) by (apply check_qty_valid; auto).
  exists (set_stock (PDict (dict_del d k)) st).
  assert (Habs : ~ In k (keys (dict_del d k)))
    by (apply dict_lookup_None, dict_lookup_del_same).
  split; [apply (remove_item_deletes st d k n qty (PInt q) q); auto|].
  split; [reflexivity|]. split; [exact Habs|]. split.
  - rewrite (get_qty_dict _ (dict_del d k)) by reflexivity.
    now rewrite dict_lookup_del_same.
  - exists (report (dict_del d k)). split.
    + now apply print_data_dict.
    + intros line Hin Hshow. apply Habs. eapply report_shows; eauto.
Qed.

Lemma remove_to_zero_deletes_witness :
  exists st',
    remove_item (PStr "apple") (PInt 12)
      (mkState (PDict [("apple", PInt 10); ("banana", PInt 15)])
               (fun _ => Absent) [] [] 0)
    = (Ret tt, st')
    /\ stock_data st' = PDict (dict_del [("apple", PInt 10); ("banana", PInt 15)] "apple")
    /\ ~ In "apple" (keys (dict_del [("apple", PInt 10); ("banana", PInt 15)] "apple"))
    /\ get_qty "apple" st' = (Ret (PInt 0), st')
    /\ exists lines,
         print_data st' = (Ret tt, push_lines lines st')
         /\ forall line, In line lines -> ~ shows "apple" line.
Proof.
  apply (remove_to_zero_deletes
           (mkState (PDict [("apple", PInt 10); ("banana", PInt 15)])
                    (fun _ => Absent) [] [] 0)
           [("apple", PInt 10); ("banana", PInt 15)] "apple" (PInt 12) 12 10).
  - reflexivity.
  - discriminate.
  - reflexivity.
  - lia.
  - reflexivity.
  - lia.
Defined.

(** ** Low stock *)

Lemma low_loop_below d T acc :
  int_valued d ->
  low_loop d T acc = Ret (acc ++ below T d).
Proof.
  revert acc. induction d as [|[k v] d IH]; intros acc Hd; simpl.
  - unfold below. simpl. now rewrite app_nil_r.
  - destruct (Hd k v (or_introl eq_refl)) as [z ->].
    assert (Hd' : int_valued d) by (intros k' v' H; apply (Hd k' v'); now right).
    unfold py_lt_int, below. simpl.
    destruct (z <? T); rewrite IH; auto.
    simpl. now rewrite <- app_assoc.
Qed.

Lemma below_spec T d k :
  int_valued d ->
  In k (below T d) <-> exists z, In (k, PInt z) d /\ z < T.
Proof.
  intros Hd. unfold below, keys. rewrite in_map_iff. split.
  - intros [[k' v] [E Hin]]. simpl in E. subst k'.
    apply filter_In in Hin. destruct Hin as [Hin Hlt].
    destruct (Hd k v Hin) as [z ->]. simpl in Hlt.
    exists z. split; auto. now apply Z.ltb_lt.
  - intros [z [Hin Hlt]]. exists (k, PInt z). split; auto.
    apply filter_In. split; auto. simpl. now apply Z.ltb_lt.
Qed.

Lemma below_none T d :
  (forall k z, In (k, PInt z) d -> T <= z) -> int_valued d -> below T d = [].
Proof.
  intros H Hd. induction d as [|[k v] d IH]; auto.
  destruct (Hd k v (or_introl eq_refl)) as [z ->].
  unfold below in *. simpl.
  destruct (Z.ltb_spec z T) as [Hlt|_].
  - specialize (H k z (or_introl eq_refl)). lia.
  - apply IH.
    + intros k' z' Hin. apply (H k' z'). now right.
    + intros k' v' Hin. apply (Hd k' v'). now right.
Qed.

Lemma below_all T d :
  (forall k z, In (k, PInt z) d -> z < T) -> int_valued d -> below T d = keys d.
Proof.
  intros H Hd. induction d as [|[k v] d IH]; auto.
  destruct (Hd k v (or_introl eq_refl)) as [z ->].
  unfold below in *. simpl.
  destruct (Z.ltb_spec z T) as [_|Hge].
  - simpl. f_equal. apply IH.
    + intros k' z' Hin. apply (H k' z'). now right.
    + intros k' v' Hin. apply (Hd k' v'). now right.
  - specialize (H k z (or_introl eq_refl)). lia.
Qed.

(** C6. In every store state whose mapping holds integer quantities, and
    for every integer threshold [T], [check_low_items T] returns, in the
    insertion order of the mapping, exactly the items whose stored
    quantity is strictly below [T] and changes nothing; with quantities
    >= 0 the result for [T = 0] is empty, and for [T] above every stored
    quantity it is the list of all items. *)
Theorem check_low_items_exact :
  forall (st : state) (d : dict) (T : Z),
    stock_data st = PDict d ->
    int_valued d ->
    check_low_items T st = (Ret (below T d), st)
    /\ (forall k, In k (below T d) <-> exists z, In (k, PInt z) d /\ z < T)
    /\ (nonneg_valued d -> check_low_items 0 st = (Ret [], st))
    /\ ((forall k z, In (k, PInt z) d -> z < T) ->
        check_low_items T st = (Ret (keys d), st)).
Proof.
  intros st d T Hsd Hd.
  assert (E : forall T', check_low_items T' st = (Ret (below T' d), st)).
  { intros T'. unfold check_low_items. run. rewrite Hsd. cbn [py_items].
    now rewrite low_loop_below. }
  split; [apply E|]. split; [intros k; now apply below_spec|]. split.
  - intros Hnn. rewrite E, below_none; auto.
    intros k z Hin. destruct (Hnn k _ Hin) as [z' [Ez Hz]]. congruence.
  - intros Hall. rewrite E, below_all; auto.
Qed.

Lemma check_low_items_exact_witness :
  check_low_items 10
    (store [("pear", PInt 12); ("apple", PInt 7); ("fig", PInt 2)] no_files)
  = (Ret (below 10 [("pear", PInt 12); ("apple", PInt 7); ("fig", PInt 2)]),
     store [("pear", PInt 12); ("apple", PInt 7); ("fig", PInt 2)] no_files)
  /\ (forall k,
        In k (below 10 [("pear", PInt 12); ("apple", PInt 7); ("fig", PInt 2)])
        <-> exists z,
              In (k, PInt z) [("pear", PInt 12); ("apple", PInt 7); ("fig", PInt 2)]
              /\ z < 10)
  /\ (nonneg_valued [("pear", PInt 12); ("apple", PInt 7); ("fig", PInt 2)] ->
      check_low_items 0
        (store [("pear", PInt 12); ("apple", PInt 7); ("fig", PInt 2)] no_files)
      = (Ret [],
         store [("pear", PInt 12); ("apple", PInt 7); ("fig", PInt 2)] no_files))
  /\ ((forall k z,
         In (k, PInt z) [("pear", PInt 12); ("apple", PInt 7); ("fig", PInt 2)] ->
         z < 10) ->
      check_low_items 10
        (store [("pear", PInt 12); ("apple", PInt 7); ("fig", PInt 2)] no_files)
      = (Ret (keys [("pear", PInt 12); ("apple", PInt 7); ("fig", PInt 2)]),
         store [("pear", PInt 12); ("apple", PInt 7); ("fig", PInt 2)] no_files)).
Proof.
  apply (check_low_items_exact
           (store [("pear", PInt 12); ("apple", PInt 7); ("fig", PInt 2)] no_files)
           [("pear", PInt 12); ("apple", PInt 7); ("fig", PInt 2)] 10).
  - reflexivity.
  - intros k v H. simpl in H.
    destruct H as [H|[H|[H|[]]]]; inversion H; eexists; reflexivity.
Defined.

(** ** Persistence *)

Section PersistenceFacts.
Context {codec : JsonCodec}.

Lemma save_data_writes st file :
  ordinary (fs st file) = true ->
  save_data file st
  = (Ret tt, set_file file (Regular (Text (json_dumps (stock_data st)))) st).
Proof.
  intros H. unfold save_data, try_except, write_text. run.
  destruct (fs st file); try reflexivity; discriminate.
Qed.

(** What a save that fails leaves behind. *)
Lemma save_data_reports st file k :
  write_fault (fs st file) = Some k ->
  save_data file st
  = (Ret tt,
     push_stderr (save_error_msg file (OSError k))
       (match fs st file with
        | Failing _ remains => set_file file (Regular remains) st
        | _ => st
        end)).
Proof.
  intros H. unfold save_data, try_except, write_text. run.
  destruct (fs st file); try discriminate; inversion H; subst; reflexivity.
Qed.

Lemma save_data_bad_path st file :
  fs st file = BadPath -> save_data file st = (Raise ValueError, st).
Proof.
  intros H. unfold save_data, try_except, write_text. run. now rewrite H.
Qed.

Lemma save_data_write_only st file :
  fs st file = WriteOnly -> save_data file st = (Ret tt, st).
Proof.
  intros H. unfold save_data, try_except, write_text. run. now rewrite H.
Qed.

Lemma save_data_fails st file k :
  fs st file = Unopenable k ->
  save_data file st
  = (Ret tt, push_stderr (save_error_msg file (OSError k)) st).
Proof.
  intros H. unfold save_data, try_except, write_text. run.
  now rewrite H.
Qed.

Lemma load_data_decoded st file s v :
  fs st file = Regular (Text s) ->
  json_loads s = Some v ->
  load_data file st = (Ret tt, set_stock v st).
Proof.
  intros Hf Hs. unfold load_data, try_except, read_text, json_load. run.
  now rewrite Hf, Hs.
Qed.

Lemma load_data_missing st file :
  missing st file ->
  load_data file st
  = (Ret tt, set_stock (PDict []) (push_stderr (file_not_found_msg file) st)).
Proof.
  intros [Hf|[Hf|[[k Hf]|[k [c Hf]]]]];
    unfold load_data, try_except, read_text; run; now rewrite Hf.
Qed.

Lemma load_data_malformed st file :
  malformed st file ->
  load_data file st
  = (Ret tt, set_stock (PDict []) (push_stderr (decode_error_msg file) st)).
Proof.
  intros [s [Hf Hs]]. unfold load_data, try_except, read_text, json_load. run.
  now rewrite Hf, Hs.
Qed.

Lemma load_data_undecodable st file :
  fs st file = Regular Undecodable ->
  load_data file st = (Raise UnicodeDecodeError, st).
Proof.
  intros Hf. unfold load_data, try_except, read_text. run. now rewrite Hf.
Qed.

Lemma load_data_unopenable st file k :
  fs st file = Unopenable k -> k <> FileNotFound ->
  load_data file st = (Raise (OSError k), st).
Proof.
  intros Hf Hk. unfold load_data, try_except, read_text. run. rewrite Hf.
  destruct k; try reflexivity. contradiction.
Qed.

Lemma load_data_bad_path st file :
  fs st file = BadPath -> load_data file st = (Raise ValueError, st).
Proof.
  intros Hf. unfold load_data, try_except, read_text. run. now rewrite Hf.
Qed.

Lemma load_data_write_only st file :
  fs st file = WriteOnly ->
  load_data file st = (Raise (OSError PermissionDenied), st).
Proof.
  intros Hf. unfold load_data, try_except, read_text. run. now rewrite Hf.
Qed.
End PersistenceFacts.

(** C3. Round trip. For every store state (a well-formed value) and every
    path where a file can be created or overwritten and read back,
    [save_data path] followed at once by [load_data path] returns normally
    both times, reports nothing, and leaves a mapping identical to the
    saved one.  The mapping comes from the file: it is restored whatever
    the store holds when the load starts ([held], for instance the empty
    mapping of a new inventory).  This holds for every [json] codec that
    loads back what it dumps. *)
Theorem save_then_load_restores :
  forall (codec : JsonCodec) (law : JsonRoundTrip codec)
         (st : state) (file : string) (held : pyval),
    well_formed (stock_data st) = true ->
    ordinary (fs st file) = true ->
    exists st1 st2 st3,
      save_data file st = (Ret tt, st1)
      /\ stock_data st1 = stock_data st
      /\ stderr st1 = stderr st
      /\ load_data file st1 = (Ret tt, st2)
      /\ stock_data st2 = stock_data st
      /\ stderr st2 = stderr st
      /\ load_data file (set_stock held st1) = (Ret tt, st3)
      /\ stock_data st3 = stock_data st
      /\ stderr st3 = stderr st.
Proof.
  intros codec law st file held Hwf Hopen.
  assert (Hload : forall st', fs st' file
                              = Regular (Text (json_dumps (stock_data st))) ->
                  load_data file st' = (Ret tt, set_stock (stock_data st) st')).
  { intros st' Hf.
    apply (load_data_decoded st' file (json_dumps (stock_data st))
             (stock_data st) Hf).
    now apply json_loads_dumps. }
  exists (set_file file (Regular (Text (json_dumps (stock_data st)))) st).
  eexists. eexists.
  split; [now apply save_data_writes|].
  split; [reflexivity|]. split; [reflexivity|].
  split; [apply Hload; simpl; now rewrite String.eqb_refl|].
  split; [reflexivity|]. split; [reflexivity|].
  split; [apply Hload; simpl; now rewrite String.eqb_refl|].
  split; reflexivity.
Qed.

Lemma save_then_load_restores_witness :
  exists st1 st2 st3,
    save_data "inventory_clean.json"
      (store [("apple", PInt 7); ("banana", PInt 15)] no_files) = (Ret tt, st1)
    /\ stock_data st1
       = stock_data (store [("apple", PInt 7); ("banana", PInt 15)] no_files)
    /\ stderr st1
       = stderr (store [("apple", PInt 7); ("banana", PInt 15)] no_files)
    /\ load_data "inventory_clean.json" st1 = (Ret tt, st2)
    /\ stock_data st2
       = stock_data (store [("apple", PInt 7); ("banana", PInt 15)] no_files)
    /\ stderr st2
       = stderr (store [("apple", PInt 7); ("banana", PInt 15)] no_files)
    /\ load_data "inventory_clean.json" (set_stock (PDict []) st1) = (Ret tt, st3)
    /\ stock_data st3
       = stock_data (store [("apple", PInt 7); ("banana", PInt 15)] no_files)
    /\ stderr st3
       = stderr (store [("apple", PInt 7); ("banana", PInt 15)] no_files).
Proof.
  apply (save_then_load_restores py_json py_json_round_trip
           (store [("apple", PInt 7); ("banana", PInt 15)] no_files)
           "inventory_clean.json" (PDict [])).
  - reflexivity.
  - reflexivity.
Defined.

(** C8, as the code has it. In every store state, [load_data path] on a
    path with no file prints the [Warning:] line for a missing file, and
    on a file whose UTF-8 text is not valid JSON prints the [Error:] line
    for undecodable JSON; in both cases it returns normally and the mapping
    becomes the empty one, whatever it was. *)
Theorem load_failure_resets :
  forall (codec : JsonCodec) (st : state) (file : string),
    (missing st file ->
       load_data file st
       = (Ret tt, set_stock (PDict [])
                    (push_stderr (file_not_found_msg file) st))
       /\ starts_with "Warning:" (file_not_found_msg file) = true)
    /\ (malformed st file ->
          load_data file st
          = (Ret tt, set_stock (PDict [])
                       (push_stderr (decode_error_msg file) st))
          /\ starts_with "Error:" (decode_error_msg file) = true).
Proof.
  intros codec st file. split; intros H; split; try reflexivity.
  - now apply load_data_missing.
  - now apply load_data_malformed.
Qed.

Lemma load_failure_resets_witness :
  (load_data "missing.json"
     (store [("apple", PInt 10)] (with_file "broken.json" (Regular (Text "{")) no_files))
   = (Ret tt,
      set_stock (PDict [])
        (push_stderr (file_not_found_msg "missing.json")
           (store [("apple", PInt 10)]
              (with_file "broken.json" (Regular (Text "{")) no_files))))
   /\ starts_with "Warning:" (file_not_found_msg "missing.json") = true)
  /\ (load_data "broken.json"
        (store [("apple", PInt 10)] (with_file "broken.json" (Regular (Text "{")) no_files))
      = (Ret tt,
         set_stock (PDict [])
           (push_stderr (decode_error_msg "broken.json")
              (store [("apple", PInt 10)]
                 (with_file "broken.json" (Regular (Text "{")) no_files))))
      /\ starts_with "Error:" (decode_error_msg "broken.json") = true).
Proof.
  split.
  - apply (load_failure_resets py_json
             (store [("apple", PInt 10)]
                (with_file "broken.json" (Regular (Text "{")) no_files))
             "missing.json").
    left. reflexivity.
  - apply (load_failure_resets py_json
             (store [("apple", PInt 10)]
                (with_file "broken.json" (Regular (Text "{")) no_files))
             "broken.json").
    exists "{". split; reflexivity.
Defined.

(** C8 as stated fails: a file whose bytes are not UTF-8 is not valid JSON
    either, and [load_data] lets the UnicodeDecodeError through; the
    mapping is not reset and nothing is reported. *)
Lemma load_non_utf8_file_raises :
  load_data "inventory.json"
    (store [("apple", PInt 10)]
       (with_file "inventory.json" (Regular Undecodable) no_files))
  = (Raise UnicodeDecodeError,
     store [("apple", PInt 10)]
       (with_file "inventory.json" (Regular Undecodable) no_files)).
Proof. reflexivity. Qed.

(** C9, as the code has it. In every store state, any I/O failure during
    [save_data path], the OSError being raised by [open], by the write or
    by the close, is reported: the method returns normally and prints one
    line to the error channel, [Error saving data to '<path>': ] followed
    by the error.  The mapping in memory, the standard output and every
    other file are unchanged; the file itself is as it was when [open]
    failed, and holds what the failed write left otherwise. *)
Theorem save_failure_reported :
  forall (codec : JsonCodec) (st : state) (file : string) (k : os_kind),
    write_fault (fs st file) = Some k ->
    exists st',
      save_data file st = (Ret tt, st')
      /\ stderr st'
         = stderr st
           ++ [[Lit "Error saving data to '"; Fmt (PStr file); Lit "': ";
                FmtExn (OSError k)]]
      /\ stock_data st' = stock_data st
      /\ stdout st' = stdout st
      /\ (forall p, p <> file -> fs st' p = fs st p)
      /\ fs st' file
         = match fs st file with
           | Failing _ remains => Regular remains
           | n => n
           end.
Proof.
  intros codec st file k H.
  rewrite (save_data_reports st file k H). eexists. split; [reflexivity|].
  destruct (fs st file) eqn:Ef; try discriminate; cbn;
    rewrite ?String.eqb_refl, ?Ef; repeat split;
    intros p Hp; destruct (String.eqb_spec p file); congruence.
Qed.

Lemma save_failure_reported_witness :
  exists st',
    save_data "inventory.json"
      (store [("apple", PInt 10)]
         (with_file "inventory.json" (Failing OtherOSError (Text "{"))
            no_files))
    = (Ret tt, st')
    /\ stderr st'
       = stderr (store [("apple", PInt 10)]
                   (with_file "inventory.json" (Failing OtherOSError (Text "{"))
                      no_files))
         ++ [[Lit "Error saving data to '"; Fmt (PStr "inventory.json");
              Lit "': "; FmtExn (OSError OtherOSError)]]
    /\ stock_data st'
       = stock_data (store [("apple", PInt 10)]
                       (with_file "inventory.json"
                          (Failing OtherOSError (Text "{")) no_files))
    /\ stdout st'
       = stdout (store [("apple", PInt 10)]
                   (with_file "inventory.json" (Failing OtherOSError (Text "{"))
                      no_files))
    /\ (forall p, p <> "inventory.json" ->
          fs st' p
          = fs (store [("apple", PInt 10)]
                  (with_file "inventory.json" (Failing OtherOSError (Text "{"))
                     no_files)) p)
    /\ fs st' "inventory.json"
       = match fs (store [("apple", PInt 10)]
                     (with_file "inventory.json"
                        (Failing OtherOSError (Text "{")) no_files))
                  "inventory.json" with
         | Failing _ remains => Regular remains
         | n => n
         end.
Proof.
  apply (save_failure_reported py_json
           (store [("apple", PInt 10)]
              (with_file "inventory.json" (Failing OtherOSError (Text "{"))
                 no_files))
           "inventory.json" OtherOSError).
  reflexivity.
Defined.

(** C9 as stated fails: the line printed for a failed save does not start
    with [Warning:] (nor with [Error:]). *)
Lemma save_failure_line_is_not_a_warning :
  exists m,
    stderr (snd (save_data "/inventory.json"
                   (store [("apple", PInt 10)]
                      (with_file "/inventory.json" (Unopenable PermissionDenied)
                         no_files))))
    = [m]
    /\ starts_with "Warning:" m = false
    /\ starts_with "Error:" m = false.
Proof. eexists. repeat split. Qed.

(** C10. A successful [load_data] of a file whose text decodes to a JSON
    object replaces the mapping by exactly that object: no key or value is
    checked or dropped, so every decoded value, zero or negative integers
    included, is what [get_qty] then returns; and there is a file content
    (the text [{"widget": -3}], decoded by [PyJson]) after which [get_qty]
    returns a negative number. *)
Theorem load_replaces_without_validation :
  (forall (codec : JsonCodec) (st : state) (file s : string) (d : dict),
      fs st file = Regular (Text s) ->
      json_loads s = Some (PDict d) ->
      load_data file st = (Ret tt, set_stock (PDict d) st)
      /\ forall k v, dict_lookup d k = Some v ->
           get_qty k (set_stock (PDict d) st)
           = (Ret v, set_stock (PDict d) st))
  /\ (exists (s : string) (st' : state) (z : Z),
        load_data "inventory.json"
          (store [] (with_file "inventory.json" (Regular (Text s)) no_files))
        = (Ret tt, st')
        /\ get_qty "widget" st' = (Ret (PInt z), st')
        /\ z < 0).
Proof.
  split.
  - intros codec st file s d Hf Hs. split.
    + now apply (load_data_decoded st file s (PDict d)).
    + intros k v Hk. rewrite (get_qty_dict _ d) by reflexivity. now rewrite Hk.
  - exists (widget_json "-3"). eexists. exists (-3). split; [|split].
    + apply (load_data_decoded _ "inventory.json" (widget_json "-3")
               (PDict [("widget", PInt (-3))])); reflexivity.
    + reflexivity.
    + lia.
Qed.

Lemma load_replaces_without_validation_witness :
  load_data "inventory.json"
    (store [("apple", PInt 10)]
       (with_file "inventory.json" (Regular (Text (widget_json "0"))) no_files))
  = (Ret tt,
     set_stock (PDict [("widget", PInt 0)])
       (store [("apple", PInt 10)]
          (with_file "inventory.json" (Regular (Text (widget_json "0"))) no_files)))
  /\ forall k v,
       dict_lookup [("widget", PInt 0)] k = Some v ->
       get_qty k
         (set_stock (PDict [("widget", PInt 0)])
            (store [("apple", PInt 10)]
               (with_file "inventory.json" (Regular (Text (widget_json "0")))
                  no_files)))
       = (Ret v,
          set_stock (PDict [("widget", PInt 0)])
            (store [("apple", PInt 10)]
               (with_file "inventory.json" (Regular (Text (widget_json "0")))
                  no_files))).
Proof.
  apply (proj1 load_replaces_without_validation py_json
           (store [("apple", PInt 10)]
              (with_file "inventory.json" (Regular (Text (widget_json "0"))) no_files))
           "inventory.json" (widget_json "0") [("widget", PInt 0)]).
  - reflexivity.
  - reflexivity.
Defined.

(** ** The invariant of the data model *)

Lemma positive_stock_empty : positive_stock (PDict []).
Proof. exists []. split; auto. intros k v []. Qed.

Lemma positive_stock_set d k z :
  positive_stock (PDict d) -> 0 < z ->
  positive_stock (PDict (dict_set d k (PInt z))).
Proof.
  intros [d' [E H]] Hz. inversion E; subst d'.
  eexists. split; [reflexivity|].
  intros k' v' Hin. apply In_dict_set in Hin.
  destruct Hin as [[_ ->]|Hin]; eauto.
Qed.

Lemma positive_stock_del d k :
  positive_stock (PDict d) -> positive_stock (PDict (dict_del d k)).
Proof.
  intros [d' [E H]]. inversion E; subst d'.
  eexists. split; [reflexivity|].
  intros k' v' Hin. apply In_dict_del in Hin. destruct Hin as [_ Hin]. eauto.
Qed.

Lemma positive_stock_lookup d k v :
  positive_stock (PDict d) -> dict_lookup d k = Some v ->
  exists z, v = PInt z /\ 0 < z.
Proof.
  intros [d' [E H]] Hk. inversion E; subst d'.
  apply dict_lookup_In in Hk. eauto.
Qed.

Lemma add_item_keeps_positive st item qty logs :
  positive_stock (stock_data st) ->
  ~ (int_value qty = Some 0
     /\ exists k d, item = PStr k /\ k <> ""
                    /\ stock_data st = PDict d /\ ~ In k (keys d)) ->
  positive_stock (stock_data (snd (add_item item qty logs st))).
Proof.
  intros Hpos Hadm.
  destruct (check_item item) as [k|] eqn:Ei.
  2:{ apply check_item_None in Ei. now rewrite add_item_bad_item. }
  apply check_item_valid in Ei. destruct Ei as [-> Hk].
  destruct (check_qty qty) as [n|] eqn:Eq.
  2:{ apply check_qty_None in Eq. rewrite add_item_bad_qty; auto.
      now exists k. }
  pose proof Eq as Hq. apply check_qty_valid in Hq. destruct Hq as [Hq Hn].
  destruct Hpos as [d [Hsd Hd]].
  destruct (dict_lookup d k) as [v|] eqn:Ek.
  - destruct (positive_stock_lookup d k v) as [z [-> Hz]];
      [exists d; auto | assumption |].
    rewrite (add_item_ok st d k n qty z logs); auto; [|now rewrite Ek].
    apply positive_stock_set; [exists d; auto | lia].
  - rewrite (add_item_ok st d k n qty 0 logs); auto; [|now rewrite Ek].
    apply positive_stock_set; [exists d; auto|].
    assert (n <> 0); [|lia]. intros ->. apply Hadm. split; auto.
    exists k, d. repeat split; auto. now apply dict_lookup_None.
Qed.

Lemma remove_item_keeps_positive st item qty :
  positive_stock (stock_data st) ->
  positive_stock (stock_data (snd (remove_item item qty st))).
Proof.
  intros Hpos.
  destruct (check_item item) as [k|] eqn:Ei.
  2:{ apply check_item_None in Ei. now rewrite remove_item_bad_item. }
  apply check_item_valid in Ei. destruct Ei as [-> Hk].
  destruct (check_qty qty) as [n|] eqn:Eq.
  2:{ apply check_qty_None in Eq. rewrite remove_item_bad_qty; auto.
      now exists k. }
  pose proof Hpos as [d [Hsd Hd]].
  destruct (dict_lookup d k) as [v|] eqn:Ek.
  - destruct (positive_stock_lookup d k v) as [z [-> Hz]];
      [exists d; auto | assumption |].
    destruct (Z_le_gt_dec (z - n) 0).
    + rewrite (remove_item_deletes st d k n qty (PInt z) z); auto.
      apply positive_stock_del. exists d; auto.
    + rewrite (remove_item_decrements st d k n qty (PInt z) z); auto; [|lia].
      apply positive_stock_set; [exists d; auto | lia].
  - apply dict_lookup_None in Ek.
    rewrite (remove_item_absent st d k qty Hsd Hk); auto.
    exists n. now apply check_qty_valid.
Qed.

Lemma load_data_keeps_positive {codec : JsonCodec} st file :
  positive_stock (stock_data st) ->
  (forall s v, fs st file = Regular (Text s) -> json_loads s = Some v ->
               positive_stock v) ->
  positive_stock (stock_data (snd (load_data file st))).
Proof.
  intros Hpos Hadm.
  destruct (fs st file) as [| [s|] | k | | k | | k c] eqn:Ef.
  - rewrite load_data_missing by (now left). apply positive_stock_empty.
  - destruct (json_loads s) as [v|] eqn:Es.
    + rewrite (load_data_decoded st file s v) by assumption. simpl.
      now apply (Hadm s v).
    + rewrite load_data_malformed by (now exists s). apply positive_stock_empty.
  - now rewrite load_data_undecodable.
  - destruct k; try (rewrite (load_data_unopenable st file _ Ef) by discriminate;
                     assumption).
    rewrite load_data_missing by (right; now left). apply positive_stock_empty.
  - now rewrite load_data_bad_path.
  - rewrite load_data_missing by (right; right; left; now exists k).
    apply positive_stock_empty.
  - now rewrite load_data_write_only.
  - rewrite load_data_missing by (right; right; right; now exists k, c).
    apply positive_stock_empty.
Qed.

Lemma save_data_keeps_stock {codec : JsonCodec} st file :
  stock_data (snd (save_data file st)) = stock_data st.
Proof.
  unfold save_data, try_except, write_text. run.
  destruct (fs st file); reflexivity.
Qed.

Lemma get_qty_keeps_state st item : snd (get_qty item st) = st.
Proof. unfold get_qty. run. now destruct (py_get (stock_data st) item (PInt 0)). Qed.

Lemma check_low_items_keeps_state st T : snd (check_low_items T st) = st.
Proof.
  unfold check_low_items. run.
  destruct (py_items (stock_data st)) as [l|e]; [|reflexivity].
  now destruct (low_loop l T []).
Qed.

(** C2, as the code has it. The invariant (every key of the mapping holds a
    strictly positive integer) is preserved by [remove_item], [save_data],
    [get_qty], [check_low_items] and [print_data] whatever their
    arguments, by [add_item] unless it adds zero of a valid item the mapping
    does not hold, and by [load_data] when the JSON value decoded from the
    file satisfies it ([load_data] checks nothing; a failed load leaves
    the empty mapping or the old one). *)
Theorem invariant_preserved_when_harmless :
  forall (codec : JsonCodec) (op : operation) (st : state),
    positive_stock (stock_data st) ->
    harmless op st ->
    positive_stock (stock_data (exec op st)).
Proof.
  intros codec op st Hpos Hh.
  destruct op as [item qty logs | item qty | file | file | item | T | ];
    cbn [exec harmless] in *.
  - now apply add_item_keeps_positive.
  - now apply remove_item_keeps_positive.
  - now apply load_data_keeps_positive.
  - now rewrite save_data_keeps_stock.
  - now rewrite get_qty_keeps_state.
  - now rewrite check_low_items_keeps_state.
  - destruct Hpos as [d [Hsd Hd]].
    rewrite (print_data_dict st d Hsd). simpl. exists d. auto.
Qed.

Lemma invariant_preserved_when_harmless_witness :
  positive_stock
    (stock_data
       (exec (OpLoad "inventory.json")
          (store [("apple", PInt 10)]
             (with_file "inventory.json" (Regular (Text (widget_json "4")))
                no_files)))).
Proof.
  apply (invariant_preserved_when_harmless py_json
           (OpLoad "inventory.json")
           (store [("apple", PInt 10)]
              (with_file "inventory.json" (Regular (Text (widget_json "4")))
                 no_files))).
  - exists [("apple", PInt 10)]. split; [reflexivity|].
    intros k v H. simpl in H.
    destruct H as [H|[]]; inversion H; eexists; (split; [reflexivity | lia]).
  - intros s v Hf Hs. cbn in Hf. inversion Hf; subst s.
    vm_compute in Hs. inversion Hs; subst v.
    exists [("widget", PInt 4)]. split; [reflexivity|].
    intros k v H. simpl in H.
    destruct H as [H|[]]; inversion H; eexists; (split; [reflexivity | lia]).
Defined.

(** C2 as stated fails: [load_data] checks nothing, so from the empty
    store, which satisfies the invariant, loading a file that holds
    [{"widget": 0}] leaves the entry [widget -> 0]. *)
Lemma invariant_broken_by_loading_zero :
  ~ (forall (op : operation) (st : state),
       positive_stock (stock_data st) ->
       positive_stock (stock_data (exec op st))).
Proof.
  intros H.
  specialize (H (OpLoad "inventory.json")
                (store [] (with_file "inventory.json"
                             (Regular (Text (widget_json "0"))) no_files))
                positive_stock_empty).
  destruct H as [d [E Hd]]. cbn in E. inversion E; subst d.
  destruct (Hd "widget" (PInt 0) (or_introl eq_refl)) as [z [Ez Hz]].
  inversion Ez. lia.
Qed.

(** Adding zero of an item the mapping does not hold also leaves an entry
    at zero. *)
Lemma add_zero_creates_zero_entry :
  stock_data (exec (OpAdd (PStr "widget") (PInt 0) None) (store [] no_files))
  = PDict [("widget", PInt 0)].
Proof. reflexivity. Qed.

(** ** The scenarios of the specification *)

(** Start empty; add apple 10; add banana 15; remove apple 3: apple is at
    7 and banana at 15. *)
Example scenario_add_add_remove :
  let run :=
    (init ;;
     _ <- add_item (PStr "apple") (PInt 10) (Some []) ;;
     _ <- add_item (PStr "banana") (PInt 15) (Some []) ;;
     remove_item (PStr "apple") (PInt 3) ;;
     a <- get_qty "apple" ;;
     b <- get_qty "banana" ;;
     ret (a, b))%py in
  fst (run (store [] no_files)) = Ret (PInt 7, PInt 15).
Proof. reflexivity. Qed.

(** [add_item "banana" (-2)] on banana = 15 is rejected; banana stays at 15. *)
Example scenario_negative_rejected :
  let run :=
    (_ <- add_item (PStr "banana") (PInt (-2)) (Some []) ;;
     get_qty "banana")%py in
  fst (run (store [("banana", PInt 15)] no_files)) = Ret (PInt 15).
Proof. reflexivity. Qed.

(** What [save_data] writes for apple = 7, banana = 15: the text of
    [json.dump] with [indent=4]. *)
Example scenario_saved_text :
  fs (snd (save_data default_file
             (store [("apple", PInt 7); ("banana", PInt 15)] no_files)))
     default_file
  = Regular (Text
      ("{" ++ nl ++ "    " ++ String PyJson.dquote "apple"
       ++ String PyJson.dquote ": 7," ++ nl ++ "    "
       ++ String PyJson.dquote "banana" ++ String PyJson.dquote ": 15"
       ++ nl ++ "}")).
Proof. reflexivity. Qed.

(** * Further properties of the methods *)

(** ** What the methods never do *)

(** X1. [remove_item] never raises on a store of integer quantities: when
    [stock_data] is a [dict] whose values are all integers, or is not a
    [dict] at all, the method returns normally for every pair of
    arguments, valid or not; it touches neither the files nor the standard
    output. *)
Theorem remove_item_never_raises :
  forall (st : state) (item qty : pyval),
    (forall d, stock_data st = PDict d -> int_valued d) ->
    exists st',
      remove_item item qty st = (Ret tt, st')
      /\ fs st' = fs st /\ stdout st' = stdout st.
Proof.
  intros st item qty Hint. unfold remove_item.
  destruct (check_item item) as [k|]; [|eexists; repeat split].
  destruct (check_qty qty) as [n|]; [|eexists; repeat split].
  run. destruct (stock_data st) as [| b | z | s | l | d] eqn:Esd;
    cbn [py_contains];
    try (eexists; repeat split; fail).
  - destruct (is_substring k s); step; rewrite ?Esd; step;
      eexists; repeat split.
  - destruct (existsb _ l); step; rewrite ?Esd; step;
      eexists; repeat split.
  - unfold dict_mem. destruct (dict_lookup d k) as [v|] eqn:Ek;
      [|eexists; repeat split].
    destruct (Hint d eq_refl k v (dict_lookup_In d k v Ek)) as [x ->].
    step. rewrite ?Esd. step. rewrite Ek. unfold py_sub_int.
    step. rewrite dict_lookup_set_same. step.
    destruct (x - n <=? 0); [|eexists; repeat split].
    step. unfold dict_mem. rewrite dict_lookup_set_same.
    eexists; repeat split.
Qed.

Lemma remove_item_never_raises_witness :
  exists st',
    remove_item (PStr "apple") (PInt 30)
      (store [("apple", PInt 10); ("banana", PInt 15)] no_files)
    = (Ret tt, st')
    /\ fs st' = fs (store [("apple", PInt 10); ("banana", PInt 15)] no_files)
    /\ stdout st'
       = stdout (store [("apple", PInt 10); ("banana", PInt 15)] no_files).
Proof.
  apply (remove_item_never_raises
           (store [("apple", PInt 10); ("banana", PInt 15)] no_files)
           (PStr "apple") (PInt 30)).
  intros d E k v H. inversion E; subst d. simpl in H.
  destruct H as [H|[H|[]]]; inversion H; eexists; reflexivity.
Defined.

(** X2. [save_data] never changes what is in memory, and raises only for a
    path that [open] rejects: for every other path it returns normally,
    whether it wrote the file or reported a failure, with the mapping and
    the standard output as before and no file touched but the one named;
    for a path with an embedded NUL character the ValueError of [open]
    propagates and nothing has changed. *)
Theorem save_data_raises_only_on_bad_path :
  forall (codec : JsonCodec) (st : state) (file : string),
    (fs st file <> BadPath ->
       exists st',
         save_data file st = (Ret tt, st')
         /\ stock_data st' = stock_data st
         /\ stdout st' = stdout st
         /\ forall p, p <> file -> fs st' p = fs st p)
    /\ (fs st file = BadPath ->
          save_data file st = (Raise ValueError, st)).
Proof.
  intros codec st file. split; [|apply save_data_bad_path].
  intros Hok. unfold save_data, try_except, write_text. run.
  destruct (fs st file) eqn:Ef; try contradiction;
    eexists; repeat split; intros p Hp; simpl;
    destruct (String.eqb_spec p file); congruence.
Qed.

Lemma save_data_raises_only_on_bad_path_witness :
  (exists st',
     save_data "inventory.json"
       (store [("apple", PInt 10)]
          (with_file "a.json" BadPath
             (with_file "inventory.json" (Uncreatable PermissionDenied)
                no_files)))
     = (Ret tt, st')
     /\ stock_data st' = PDict [("apple", PInt 10)]
     /\ stdout st' = []
     /\ forall p, p <> "inventory.json" ->
          fs st' p
          = fs (store [("apple", PInt 10)]
                  (with_file "a.json" BadPath
                     (with_file "inventory.json" (Uncreatable PermissionDenied)
                        no_files))) p)
  /\ save_data "a.json"
       (store [("apple", PInt 10)]
          (with_file "a.json" BadPath
             (with_file "inventory.json" (Uncreatable PermissionDenied)
                no_files)))
     = (Raise ValueError,
        store [("apple", PInt 10)]
          (with_file "a.json" BadPath
             (with_file "inventory.json" (Uncreatable PermissionDenied)
                no_files))).
Proof.
  split.
  - apply (proj1 (save_data_raises_only_on_bad_path py_json
                    (store [("apple", PInt 10)]
                       (with_file "a.json" BadPath
                          (with_file "inventory.json"
                             (Uncreatable PermissionDenied) no_files)))
                    "inventory.json")).
    discriminate.
  - apply (proj2 (save_data_raises_only_on_bad_path py_json
                    (store [("apple", PInt 10)]
                       (with_file "a.json" BadPath
                          (with_file "inventory.json"
                             (Uncreatable PermissionDenied) no_files)))
                    "a.json")).
    reflexivity.
Defined.

Lemma print_items_frame l st :
  exists ls, print_items l st = (Ret tt, push_lines ls st).
Proof. exists (item_lines l). apply print_items_lines. Qed.

Lemma print_data_frame st :
  exists o ls, print_data st = (o, push_lines ls st).
Proof.
  unfold print_data. run. rewrite !push_stdout_lines.
  change (stock_data (push_lines _ st)) with (stock_data st).
  destruct (truthy (stock_data st)); cbn [negb].
  - destruct (py_items (stock_data st)) as [l|e].
    + rewrite print_items_lines, !push_stdout_lines, !push_lines_lines.
      eexists. eexists. reflexivity.
    + eexists. eexists. reflexivity.
  - rewrite !push_stdout_lines, !push_lines_lines. eexists. eexists. reflexivity.
Qed.

(** X3. The queries are read-only: [get_qty] and [check_low_items] leave
    the state exactly as it was, whether they return or raise, and
    [print_data] only appends lines to the standard output. *)
Theorem queries_are_read_only :
  forall (st : state) (item : string) (T : Z),
    snd (get_qty item st) = st
    /\ snd (check_low_items T st) = st
    /\ exists lines, snd (print_data st) = push_lines lines st.
Proof.
  intros st item T. split; [apply get_qty_keeps_state|].
  split; [apply check_low_items_keeps_state|].
  destruct (print_data_frame st) as [o [ls E]]. exists ls. now rewrite E.
Qed.

(** ** What a successful [add_item] or [remove_item] changes *)

Lemma keys_dict_set_present d k v v0 :
  dict_lookup d k = Some v0 -> keys (dict_set d k v) = keys d.
Proof.
  induction d as [|[k' v'] d IH]; simpl; [discriminate|].
  destruct (k' =? k)%string; simpl; intros H; [reflexivity|].
  now rewrite IH.
Qed.

Lemma dict_set_same d k v :
  dict_lookup d k = Some v -> dict_set d k v = d.
Proof.
  induction d as [|[k' v'] d IH]; simpl; [discriminate|].
  destruct (k' =? k)%string; intros H.
  - congruence.
  - now rewrite IH.
Qed.

Lemma dict_set_set d k v w :
  dict_set (dict_set d k v) k w = dict_set d k w.
Proof.
  induction d as [|[k' v'] d IH]; simpl.
  - now rewrite String.eqb_refl.
  - destruct (k' =? k)%string eqn:E; simpl; rewrite E; congruence.
Qed.

Lemma dict_del_absent d k : dict_lookup d k = None -> dict_del d k = d.
Proof.
  induction d as [|[k' v'] d IH]; simpl; auto.
  destruct (k' =? k)%string; [discriminate|]. simpl. intros H. now rewrite IH.
Qed.

Lemma dict_del_app_new d k v :
  dict_lookup d k = None -> dict_del (d ++ [(k, v)]) k = d.
Proof.
  intros H. unfold dict_del. rewrite filter_app. simpl.
  rewrite String.eqb_refl. simpl. rewrite app_nil_r.
  now apply dict_del_absent.
Qed.

(** X4. A successful [add_item] changes the entry of its item and nothing
    else: every other item keeps its quantity, the order of the keys is
    kept (a new key goes last), the files and both output streams are
    untouched, and the log list gains exactly one record,
    [<now>: Added <qty> of <item>]. *)
Theorem add_item_changes_only_its_entry :
  forall (st : state) (d : dict) (k : string) (qty : pyval) (n q : Z)
         (logs : option (list message)),
    stock_data st = PDict d ->
    k <> "" ->
    int_value qty = Some n -> 0 <= n ->
    int_value (match dict_lookup d k with Some v => v | None => PInt 0 end)
    = Some q ->
    exists d',
      add_item (PStr k) qty logs st
      = (Ret (Some (session logs
                    ++ [[FmtNow (clock st); Lit ": Added "; Fmt qty;
                         Lit " of "; Fmt (PStr k)]])),
         set_stock (PDict d') st)
      /\ dict_lookup d' k = Some (PInt (q + n))
      /\ (forall k', k' <> k -> dict_lookup d' k' = dict_lookup d k')
      /\ keys d' = (if dict_mem d k then keys d else keys d ++ [k]).
Proof.
  intros st d k qty n q logs Hsd Hk Hq Hn Hold.
  exists (dict_set d k (PInt (q + n))).
  assert (Hc : check_qty qty = Some n) by (apply check_qty_valid; auto).
  split; [|split; [|split]].
  - rewrite (add_item_ok st d k n qty q logs); auto.
  - apply dict_lookup_set_same.
  - intros k' Hk'. now apply dict_lookup_set_other.
  - unfold dict_mem. destruct (dict_lookup d k) as [v|] eqn:Ek.
    + now apply (keys_dict_set_present d k _ v).
    + rewrite dict_set_absent by assumption. unfold keys.
      now rewrite map_app.
Qed.

Lemma add_item_changes_only_its_entry_witness :
  exists d',
    add_item (PStr "banana") (PInt 5) (Some [])
      (store [("apple", PInt 10); ("banana", PInt 15)] no_files)
    = (Ret (Some (session (Some [])
                  ++ [[FmtNow 0; Lit ": Added "; Fmt (PInt 5);
                       Lit " of "; Fmt (PStr "banana")]])),
       set_stock (PDict d')
         (store [("apple", PInt 10); ("banana", PInt 15)] no_files))
    /\ dict_lookup d' "banana" = Some (PInt (15 + 5))
    /\ (forall k', k' <> "banana" ->
          dict_lookup d' k'
          = dict_lookup [("apple", PInt 10); ("banana", PInt 15)] k')
    /\ keys d'
       = (if dict_mem [("apple", PInt 10); ("banana", PInt 15)] "banana"
          then keys [("apple", PInt 10); ("banana", PInt 15)]
          else keys [("apple", PInt 10); ("banana", PInt 15)] ++ ["banana"]).
Proof.
  apply (add_item_changes_only_its_entry
           (store [("apple", PInt 10); ("banana", PInt 15)] no_files)
           [("apple", PInt 10); ("banana", PInt 15)] "banana" (PInt 5) 5 15
           (Some [])).
  - reflexivity.
  - discriminate.
  - reflexivity.
  - lia.
  - reflexivity.
Defined.

(** X5. A removal that leaves stock: when the stored integer quantity
    exceeds [qty], [remove_item] lowers it by exactly [qty], keeps the
    entry at its place and every other entry as it was, and reports
    nothing. *)
Theorem remove_item_partial_decrement :
  forall (st : state) (d : dict) (k : string) (qty : pyval) (n q : Z),
    stock_data st = PDict d ->
    k <> "" ->
    int_value qty = Some n -> 0 <= n ->
    dict_lookup d k = Some (PInt q) ->
    n < q ->
    exists d',
      remove_item (PStr k) qty st = (Ret tt, set_stock (PDict d') st)
      /\ dict_lookup d' k = Some (PInt (q - n))
      /\ (forall k', k' <> k -> dict_lookup d' k' = dict_lookup d k')
      /\ keys d' = keys d.
Proof.
  intros st d k qty n q Hsd Hk Hq Hn Hv Hlt.
  exists (dict_set d k (PInt (q - n))).
  assert (Hc : check_qty qty = Some n) by (apply check_qty_valid; auto).
  split; [|split; [|split]].
  - apply (remove_item_decrements st d k n qty (PInt q) q); auto. lia.
  - apply dict_lookup_set_same.
  - intros k' Hk'. now apply dict_lookup_set_other.
  - now apply (keys_dict_set_present d k _ (PInt q)).
Qed.

Lemma remove_item_partial_decrement_witness :
  exists d',
    remove_item (PStr "apple") (PInt 3)
      (store [("apple", PInt 10); ("banana", PInt 15)] no_files)
    = (Ret tt,
       set_stock (PDict d')
         (store [("apple", PInt 10); ("banana", PInt 15)] no_files))
    /\ dict_lookup d' "apple" = Some (PInt (10 - 3))
    /\ (forall k', k' <> "apple" ->
          dict_lookup d' k'
          = dict_lookup [("apple", PInt 10); ("banana", PInt 15)] k')
    /\ keys d' = keys [("apple", PInt 10); ("banana", PInt 15)].
Proof.
  apply (remove_item_partial_decrement
           (store [("apple", PInt 10); ("banana", PInt 15)] no_files)
           [("apple", PInt 10); ("banana", PInt 15)] "apple" (PInt 3) 3 10).
  - reflexivity.
  - discriminate.
  - reflexivity.
  - lia.
  - reflexivity.
  - lia.
Defined.

(** X6. Adding a quantity and removing it again restores the mapping: for
    an item that is absent, or present with a strictly positive integer
    quantity, [add_item item qty] followed by [remove_item item qty]
    leaves exactly the mapping it started from, order included. *)
Theorem add_then_remove_restores :
  forall (st : state) (d : dict) (k : string) (qty : pyval) (n : Z)
         (logs : option (list message)),
    stock_data st = PDict d ->
    k <> "" ->
    int_value qty = Some n -> 0 <= n ->
    (dict_lookup d k = None
     \/ exists q, dict_lookup d k = Some (PInt q) /\ 0 < q) ->
    exists logs' st1 st2,
      add_item (PStr k) qty logs st = (Ret logs', st1)
      /\ remove_item (PStr k) qty st1 = (Ret tt, st2)
      /\ stock_data st2 = PDict d
      /\ stderr st2 = stderr st.
Proof.
  intros st d k qty n logs Hsd Hk Hq Hn Hcase.
  assert (Hc : check_qty qty = Some n) by (apply check_qty_valid; auto).
  destruct Hcase as [Habs | [q [Hv Hpos]]].
  - eexists. eexists. eexists. split.
    + apply (add_item_ok st d k n qty 0 logs); auto. now rewrite Habs.
    + split.
      * apply (remove_item_deletes _ (dict_set d k (PInt (0 + n))) k n qty
                 (PInt (0 + n)) (0 + n)); auto.
        -- apply dict_lookup_set_same.
        -- lia.
      * split; [|reflexivity]. cbn [stock_data set_stock].
        rewrite dict_del_set. now rewrite dict_del_absent.
  - eexists. eexists. eexists. split.
    + apply (add_item_ok st d k n qty q logs); auto. now rewrite Hv.
    + split.
      * apply (remove_item_decrements _ (dict_set d k (PInt (q + n))) k n qty
                 (PInt (q + n)) (q + n)); auto.
        -- apply dict_lookup_set_same.
        -- lia.
      * split; [|reflexivity]. cbn [stock_data set_stock].
        rewrite dict_set_set. replace (q + n - n) with q by lia.
        now rewrite dict_set_same.
Qed.

Lemma add_then_remove_restores_witness :
  exists logs' st1 st2,
    add_item (PStr "fig") (PInt 4) None
      (store [("apple", PInt 10)] no_files) = (Ret logs', st1)
    /\ remove_item (PStr "fig") (PInt 4) st1 = (Ret tt, st2)
    /\ stock_data st2 = PDict [("apple", PInt 10)]
    /\ stderr st2 = stderr (store [("apple", PInt 10)] no_files).
Proof.
  apply (add_then_remove_restores
           (store [("apple", PInt 10)] no_files)
           [("apple", PInt 10)] "fig" (PInt 4) 4 None).
  - reflexivity.
  - discriminate.
  - reflexivity.
  - lia.
  - left. reflexivity.
Defined.

(** ** Ill-typed stores *)

(** X7. [add_item] does not guard the stored value: with valid arguments,
    if the value stored for the item is not a number ([None], a [str], a
    [list] or a [dict]) the addition raises TypeError, and if [stock_data]
    is not a [dict] the call of [get] raises AttributeError; in both cases
    the exception propagates and nothing has been changed or printed. *)
Theorem add_item_raises_on_ill_typed_store :
  forall (st : state) (k : string) (qty : pyval) (n : Z)
         (logs : option (list message)),
    k <> "" ->
    int_value qty = Some n -> 0 <= n ->
    (forall d v, stock_data st = PDict d -> dict_lookup d k = Some v ->
                 not_a_number v = true ->
                 add_item (PStr k) qty logs st = (Raise TypeError, st))
    /\ (is_dict (stock_data st) = false ->
        add_item (PStr k) qty logs st = (Raise AttributeError, st)).
Proof.
  intros st k qty n logs Hk Hq Hn.
  assert (Hc : check_qty qty = Some n) by (apply check_qty_valid; auto).
  assert (Hi : check_item (PStr k) = Some k) by (apply check_item_valid; auto).
  split.
  - intros d v Hsd Hv Hbad. unfold add_item. rewrite Hi, Hc. run.
    rewrite Hsd. cbn [py_get]. rewrite Hv. unfold py_add_int.
    destruct v; try discriminate; reflexivity.
  - intros Hnd. unfold add_item. rewrite Hi, Hc. run.
    destruct (stock_data st); try reflexivity. discriminate.
Qed.

Lemma add_item_raises_on_ill_typed_store_witness :
  add_item (PStr "apple") (PInt 1) None
    (store [("apple", PStr "ten")] no_files)
  = (Raise TypeError, store [("apple", PStr "ten")] no_files)
  /\ add_item (PStr "apple") (PInt 1) None
       (mkState (PList [PInt 1]) no_files [] [] 0)
     = (Raise AttributeError, mkState (PList [PInt 1]) no_files [] [] 0).
Proof.
  split.
  - apply (proj1 (add_item_raises_on_ill_typed_store
                    (store [("apple", PStr "ten")] no_files)
                    "apple" (PInt 1) 1 None
                    ltac:(discriminate) eq_refl ltac:(lia))
                 [("apple", PStr "ten")] (PStr "ten"));
      reflexivity.
  - apply (proj2 (add_item_raises_on_ill_typed_store
                    (mkState (PList [PInt 1]) no_files [] [] 0)
                    "apple" (PInt 1) 1 None
                    ltac:(discriminate) eq_refl ltac:(lia))).
    reflexivity.
Defined.

(** X8. [remove_item] catches what [add_item] lets through: when the
    value stored for the item is not a number ([None], a [str], a [list]
    or a [dict]), the TypeError of the subtraction is caught, the line
    [Error removing item: <error>] goes to the error channel, and the
    mapping is unchanged. *)
Theorem remove_item_reports_type_error :
  forall (st : state) (d : dict) (k : string) (qty v : pyval) (n : Z),
    stock_data st = PDict d ->
    k <> "" ->
    int_value qty = Some n -> 0 <= n ->
    dict_lookup d k = Some v ->
    not_a_number v = true ->
    remove_item (PStr k) qty st
    = (Ret tt, push_stderr [Lit "Error removing item: "; FmtExn TypeError] st).
Proof.
  intros st d k qty v n Hsd Hk Hq Hn Hv Hbad.
  assert (Hc : check_qty qty = Some n) by (apply check_qty_valid; auto).
  assert (Hi : check_item (PStr k) = Some k) by (apply check_item_valid; auto).
  assert (Hnone : int_value v = None) by (destruct v; try discriminate; reflexivity).
  unfold remove_item. rewrite Hi, Hc. run. rewrite Hsd. cbn [py_contains].
  unfold dict_mem. rewrite Hv. step. rewrite Hsd. step. rewrite Hv.
  unfold py_sub_int. rewrite Hnone. reflexivity.
Qed.

Lemma remove_item_reports_type_error_witness :
  remove_item (PStr "apple") (PInt 1)
    (store [("apple", PStr "ten")] no_files)
  = (Ret tt,
     push_stderr [Lit "Error removing item: "; FmtExn TypeError]
       (store [("apple", PStr "ten")] no_files)).
Proof.
  apply (remove_item_reports_type_error
           (store [("apple", PStr "ten")] no_files)
           [("apple", PStr "ten")] "apple" (PInt 1) (PStr "ten") 1).
  - reflexivity.
  - discriminate.
  - reflexivity.
  - lia.
  - reflexivity.
  - reflexivity.
Defined.

(** X9. [check_low_items] raises on an ill-typed store and changes
    nothing: TypeError when some stored value is not a number ([None], a
    [str], a [list] or a [dict]), for which the comparison with the
    threshold fails; AttributeError when [stock_data] is not a [dict]. *)
Theorem check_low_items_raises_on_ill_typed_store :
  forall (st : state) (T : Z),
    (forall d, stock_data st = PDict d ->
               (exists k v, In (k, v) d /\ not_a_number v = true) ->
               check_low_items T st = (Raise TypeError, st))
    /\ (is_dict (stock_data st) = false ->
        check_low_items T st = (Raise AttributeError, st)).
Proof.
  intros st T. split.
  - intros d Hsd [k [v [Hin Hbad]]].
    assert (Hnone : int_value v = None)
      by (destruct v; try discriminate; reflexivity).
    unfold check_low_items. run. rewrite Hsd. cbn [py_items].
    assert (H : forall acc, low_loop d T acc = Raise TypeError).
    { clear Hsd. induction d as [|[k' v'] d IH]; intros acc; [contradiction|].
      simpl. unfold py_lt_int. destruct Hin as [E|Hin].
      - inversion E; subst. now rewrite Hnone.
      - destruct (int_value v') as [x|]; [|reflexivity].
        destruct (x <? T); now apply IH. }
    now rewrite H.
  - intros Hnd. unfold check_low_items. run.
    destruct (stock_data st); try reflexivity. discriminate.
Qed.

Lemma check_low_items_raises_on_ill_typed_store_witness :
  check_low_items 5 (store [("apple", PInt 1); ("pear", PNone)] no_files)
  = (Raise TypeError, store [("apple", PInt 1); ("pear", PNone)] no_files)
  /\ check_low_items 5 (mkState PNone no_files [] [] 0)
     = (Raise AttributeError, mkState PNone no_files [] [] 0).
Proof.
  split.
  - apply (proj1 (check_low_items_raises_on_ill_typed_store
                    (store [("apple", PInt 1); ("pear", PNone)] no_files) 5)
                 [("apple", PInt 1); ("pear", PNone)] eq_refl).
    exists "pear", PNone. split; [right; left; reflexivity | reflexivity].
  - apply (proj2 (check_low_items_raises_on_ill_typed_store
                    (mkState PNone no_files [] [] 0) 5)).
    reflexivity.
Defined.

(** ** Loading *)

(** X10. [load_data] catches two errors only: when [open] fails with an
    OSError other than FileNotFoundError (permission denied, a directory),
    the error propagates to the caller and the state, mapping included, is
    exactly as before. *)
Theorem load_data_propagates_other_os_errors :
  forall (codec : JsonCodec) (st : state) (file : string) (k : os_kind),
    fs st file = Unopenable k ->
    k <> FileNotFound ->
    load_data file st = (Raise (OSError k), st).
Proof.
  intros codec st file k Hf Hk. now apply load_data_unopenable.
Qed.

Lemma load_data_propagates_other_os_errors_witness :
  load_data "inventory.json"
    (store [("apple", PInt 10)]
       (with_file "inventory.json" (Unopenable IsADirectory) no_files))
  = (Raise (OSError IsADirectory),
     store [("apple", PInt 10)]
       (with_file "inventory.json" (Unopenable IsADirectory) no_files)).
Proof.
  apply (load_data_propagates_other_os_errors py_json
           (store [("apple", PInt 10)]
              (with_file "inventory.json" (Unopenable IsADirectory) no_files))
           "inventory.json" IsADirectory).
  - reflexivity.
  - discriminate.
Defined.

Lemma load_data_fs {codec : JsonCodec} st file :
  fs (snd (load_data file st)) = fs st.
Proof.
  unfold load_data, try_except, read_text, json_load. run.
  destruct (fs st file) as [| [s|] | k | | k | | k c]; try reflexivity.
  - destruct (json_loads s); reflexivity.
  - destruct k; reflexivity.
Qed.

(** X11. [load_data] reads and never writes: it leaves every file as it
    was, so loading twice is the same as loading once (same outcome, same
    mapping); a load never merges with what was in memory. *)
Theorem load_data_idempotent :
  forall (codec : JsonCodec) (st : state) (file : string),
    fs (snd (load_data file st)) = fs st
    /\ fst (load_data file (snd (load_data file st))) = fst (load_data file st)
    /\ stock_data (snd (load_data file (snd (load_data file st))))
       = stock_data (snd (load_data file st)).
Proof.
  intros codec st file. split; [apply load_data_fs|].
  unfold load_data, try_except, read_text, json_load. run.
  destruct (fs st file) as [| [s|] | k | | k | | k c] eqn:Ef; cbn; rewrite ?Ef;
    try (split; reflexivity).
  - destruct (json_loads s) eqn:Es; cbn; rewrite Ef, ?Es; split; reflexivity.
  - destruct k; cbn; rewrite Ef; split; reflexivity.
Qed.

(** X12. [load_data] accepts any JSON value, not only objects: when the
    file decodes to a value that is not a [dict] (an array, a number, a
    string, null), the load succeeds silently and [stock_data] is that
    value; afterwards [get_qty], [add_item] with valid arguments and
    [check_low_items] all raise AttributeError. *)
Theorem load_non_object_breaks_the_store :
  forall (codec : JsonCodec) (st : state) (file s : string) (v : pyval)
         (k : string) (T : Z),
    fs st file = Regular (Text s) ->
    json_loads s = Some v ->
    is_dict v = false ->
    k <> "" ->
    load_data file st = (Ret tt, set_stock v st)
    /\ get_qty k (set_stock v st) = (Raise AttributeError, set_stock v st)
    /\ add_item (PStr k) (PInt 1) None (set_stock v st)
       = (Raise AttributeError, set_stock v st)
    /\ check_low_items T (set_stock v st)
       = (Raise AttributeError, set_stock v st).
Proof.
  intros codec st file s v k T Hf Hs Hv Hk.
  split; [now apply (load_data_decoded st file s v)|].
  assert (Hi : check_item (PStr k) = Some k) by (apply check_item_valid; auto).
  unfold get_qty, add_item, check_low_items. rewrite Hi. run.
  cbn [set_stock stock_data check_qty int_value Z.ltb Z.compare].
  destruct v; try discriminate; repeat split.
Qed.

Lemma load_non_object_breaks_the_store_witness :
  load_data "inventory.json"
    (store [("apple", PInt 10)]
       (with_file "inventory.json" (Regular (Text "[1, 2]")) no_files))
  = (Ret tt,
     set_stock (PList [PInt 1; PInt 2])
       (store [("apple", PInt 10)]
          (with_file "inventory.json" (Regular (Text "[1, 2]")) no_files)))
  /\ get_qty "apple"
       (set_stock (PList [PInt 1; PInt 2])
          (store [("apple", PInt 10)]
             (with_file "inventory.json" (Regular (Text "[1, 2]")) no_files)))
     = (Raise AttributeError,
        set_stock (PList [PInt 1; PInt 2])
          (store [("apple", PInt 10)]
             (with_file "inventory.json" (Regular (Text "[1, 2]")) no_files)))
  /\ add_item (PStr "apple") (PInt 1) None
       (set_stock (PList [PInt 1; PInt 2])
          (store [("apple", PInt 10)]
             (with_file "inventory.json" (Regular (Text "[1, 2]")) no_files)))
     = (Raise AttributeError,
        set_stock (PList [PInt 1; PInt 2])
          (store [("apple", PInt 10)]
             (with_file "inventory.json" (Regular (Text "[1, 2]")) no_files)))
  /\ check_low_items 5
       (set_stock (PList [PInt 1; PInt 2])
          (store [("apple", PInt 10)]
             (with_file "inventory.json" (Regular (Text "[1, 2]")) no_files)))
     = (Raise AttributeError,
        set_stock (PList [PInt 1; PInt 2])
          (store [("apple", PInt 10)]
             (with_file "inventory.json" (Regular (Text "[1, 2]")) no_files))).
Proof.
  apply (load_non_object_breaks_the_store py_json
           (store [("apple", PInt 10)]
              (with_file "inventory.json" (Regular (Text "[1, 2]")) no_files))
           "inventory.json" "[1, 2]" (PList [PInt 1; PInt 2]) "apple" 5).
  - reflexivity.
  - reflexivity.
  - reflexivity.
  - discriminate.
Defined.

(** ** Quantities never go negative *)

Lemma nonneg_stock_set d k z :
  nonneg_stock (PDict d) -> 0 <= z ->
  nonneg_stock (PDict (dict_set d k (PInt z))).
Proof.
  intros [d' [E H]] Hz. inversion E; subst d'.
  eexists. split; [reflexivity|].
  intros k' v' Hin. apply In_dict_set in Hin.
  destruct Hin as [[_ ->]|Hin]; [eauto | eapply H; eauto].
Qed.

Lemma nonneg_stock_del d k :
  nonneg_stock (PDict d) -> nonneg_stock (PDict (dict_del d k)).
Proof.
  intros [d' [E H]]. inversion E; subst d'.
  eexists. split; [reflexivity|].
  intros k' v' Hin. apply In_dict_del in Hin. destruct Hin as [_ Hin].
  eapply H; eauto.
Qed.

Lemma nonneg_stock_lookup d k v :
  nonneg_stock (PDict d) -> dict_lookup d k = Some v ->
  exists z, v = PInt z /\ 0 <= z.
Proof.
  intros [d' [E H]] Hk. inversion E; subst d'.
  apply dict_lookup_In in Hk. eapply H; eauto.
Qed.

Lemma add_item_keeps_nonneg st item qty logs :
  nonneg_stock (stock_data st) ->
  nonneg_stock (stock_data (snd (add_item item qty logs st))).
Proof.
  intros Hnn.
  destruct (check_item item) as [k|] eqn:Ei.
  2:{ apply check_item_None in Ei. now rewrite add_item_bad_item. }
  apply check_item_valid in Ei. destruct Ei as [-> Hk].
  destruct (check_qty qty) as [n|] eqn:Eq.
  2:{ apply check_qty_None in Eq. rewrite add_item_bad_qty; auto.
      now exists k. }
  pose proof Eq as Hq. apply check_qty_valid in Hq. destruct Hq as [Hq Hn].
  pose proof Hnn as [d [Hsd Hd]]. rewrite Hsd in Hnn.
  destruct (dict_lookup d k) as [v|] eqn:Ek.
  - destruct (nonneg_stock_lookup d k v Hnn Ek) as [z [-> Hz]].
    rewrite (add_item_ok st d k n qty z logs); auto; [|now rewrite Ek].
    apply nonneg_stock_set; [assumption | lia].
  - rewrite (add_item_ok st d k n qty 0 logs); auto; [|now rewrite Ek].
    apply nonneg_stock_set; [assumption | lia].
Qed.

Lemma remove_item_keeps_nonneg st item qty :
  nonneg_stock (stock_data st) ->
  nonneg_stock (stock_data (snd (remove_item item qty st))).
Proof.
  intros Hnn.
  destruct (check_item item) as [k|] eqn:Ei.
  2:{ apply check_item_None in Ei. now rewrite remove_item_bad_item. }
  apply check_item_valid in Ei. destruct Ei as [-> Hk].
  destruct (check_qty qty) as [n|] eqn:Eq.
  2:{ apply check_qty_None in Eq. rewrite remove_item_bad_qty; auto.
      now exists k. }
  pose proof Hnn as [d [Hsd Hd]].
  assert (Hnd : nonneg_stock (PDict d)) by (now rewrite <- Hsd).
  destruct (dict_lookup d k) as [v|] eqn:Ek.
  - destruct (nonneg_stock_lookup d k v Hnd Ek) as [z [-> Hz]].
    destruct (Z_le_gt_dec (z - n) 0).
    + rewrite (remove_item_deletes st d k n qty (PInt z) z); auto.
      now apply nonneg_stock_del.
    + rewrite (remove_item_decrements st d k n qty (PInt z) z); auto; [|lia].
      apply nonneg_stock_set; [assumption | lia].
  - apply dict_lookup_None in Ek.
    rewrite (remove_item_absent st d k qty Hsd Hk); auto.
    exists n. now apply check_qty_valid.
Qed.

(** X13. Quantities never go negative: if every stored value is an
    integer >= 0, it is still so after any [add_item], [remove_item],
    [save_data], [get_qty], [check_low_items] or [print_data], whatever the
    arguments ([load_data] alone can bring in other values). *)
Theorem nonneg_quantities_preserved :
  forall (codec : JsonCodec) (op : operation) (st : state),
    is_load op = false ->
    nonneg_stock (stock_data st) ->
    nonneg_stock (stock_data (exec op st)).
Proof.
  intros codec op st Hop Hnn.
  destruct op as [item qty logs | item qty | file | file | item | T | ];
    cbn [exec is_load] in *.
  - now apply add_item_keeps_nonneg.
  - now apply remove_item_keeps_nonneg.
  - discriminate.
  - now rewrite save_data_keeps_stock.
  - now rewrite get_qty_keeps_state.
  - now rewrite check_low_items_keeps_state.
  - destruct (print_data_frame st) as [o [ls E]]. now rewrite E.
Qed.

Lemma nonneg_quantities_preserved_witness :
  nonneg_stock
    (stock_data
       (exec (OpAdd (PStr "widget") (PInt 0) None)
          (store [("apple", PInt 10)] no_files))).
Proof.
  apply (nonneg_quantities_preserved py_json
           (OpAdd (PStr "widget") (PInt 0) None)
           (store [("apple", PInt 10)] no_files)).
  - reflexivity.
  - exists [("apple", PInt 10)]. split; [reflexivity|].
    intros k v H. simpl in H.
    destruct H as [H|[]]; inversion H; eexists; (split; [reflexivity | lia]).
Defined.

(** ** The report *)



(** X15. [print_data] on a store that is not a [dict]: a falsy value
    (null, false, 0, the empty string or list) is reported as
    [Inventory is empty.]; for any other value the method raises
    AttributeError after the header line, and the footer is not printed. *)
Theorem print_data_on_non_dict :
  forall (st : state),
    is_dict (stock_data st) = false ->
    print_data st
    = if truthy (stock_data st)
      then (Raise AttributeError,
            push_lines [[Lit (nl ++ "--- Items Report ---")]] st)
      else (Ret tt,
            push_lines [[Lit (nl ++ "--- Items Report ---")];
                        [Lit "Inventory is empty."];
                        [Lit ("--------------------" ++ nl)]] st).
Proof.
  intros st Hnd. unfold print_data. run. rewrite !push_stdout_lines.
  change (stock_data (push_lines _ st)) with (stock_data st).
  destruct (truthy (stock_data st)) eqn:Et; cbn [negb].
  - destruct (stock_data st); try discriminate; reflexivity.
  - rewrite !push_stdout_lines, !push_lines_lines. reflexivity.
Qed.

Lemma print_data_on_non_dict_witness :
  print_data (mkState (PList [PInt 1]) no_files [] [] 0)
  = if truthy (stock_data (mkState (PList [PInt 1]) no_files [] [] 0))
    then (Raise AttributeError,
          push_lines [[Lit (nl ++ "--- Items Report ---")]]
            (mkState (PList [PInt 1]) no_files [] [] 0))
    else (Ret tt,
          push_lines [[Lit (nl ++ "--- Items Report ---")];
                      [Lit "Inventory is empty."];
                      [Lit ("--------------------" ++ nl)]]
            (mkState (PList [PInt 1]) no_files [] [] 0)).
Proof.
  apply (print_data_on_non_dict (mkState (PList [PInt 1]) no_files [] [] 0)).
  reflexivity.
Defined.

(** ** The driver *)

Ltac flatten_state :=
  cbv beta iota delta [push_stdout push_stderr push_lines set_stock set_file
                       print_out eprint init put_stock ret
                       stock_data fs stderr stdout clock].



Ltac main_prefix :=
  unfold main; cbn; flatten_state; cbv beta delta [bind].

Ltac main_suffix :=
  flatten_state;
  try (erewrite print_data_dict by reflexivity);
  flatten_state; cbn [print_all session added_msg]; flatten_state;
  cbv beta delta [bind]; flatten_state;
  eexists; (split; [reflexivity|]);
  cbn [stock_data fs stderr stdout clock];
  repeat split; rewrite <- ?app_assoc; reflexivity.

(** X17. [main] when [inventory_clean.json] is out of reach.  If no file is
    there and none can be created (the save fails with [OSError k] at
    [open], the load finds no file), the failed save is reported, the load
    warns, [new_inventory] starts empty and [main] returns normally.  If
    [open] fails in both modes with an error other than
    FileNotFoundError, the failed save is reported and the load raises
    that error, which nothing in [main] catches.  If the file can be
    written but not read, the save succeeds and the load raises
    PermissionError. *)
Theorem main_when_file_cannot_be_opened :
  forall (codec : JsonCodec) (st : state) (k : os_kind),
    (fs st "inventory_clean.json" = Uncreatable k
     \/ (fs st "inventory_clean.json" = Unopenable k /\ k = FileNotFound) ->
       exists st',
         main st = (Ret tt, st')
         /\ stock_data st' = PDict []
         /\ fs st' = fs st
         /\ stderr st'
            = stderr st
              ++ [bad_qty_msg (PInt (-2)); bad_item_msg (PInt 123);
                  remove_error_msg (KeyError (not_in_stock_msg (PStr "orange")));
                  save_error_msg "inventory_clean.json" (OSError k);
                  file_not_found_msg "inventory_clean.json"])
    /\ (fs st "inventory_clean.json" = Unopenable k -> k <> FileNotFound ->
          exists st',
            main st = (Raise (OSError k), st')
            /\ stock_data st' = PDict []
            /\ fs st' = fs st
            /\ stderr st'
               = stderr st
                 ++ [bad_qty_msg (PInt (-2)); bad_item_msg (PInt 123);
                     remove_error_msg
                       (KeyError (not_in_stock_msg (PStr "orange")));
                     save_error_msg "inventory_clean.json" (OSError k)])
    /\ (fs st "inventory_clean.json" = WriteOnly ->
          exists st',
            main st = (Raise (OSError PermissionDenied), st')
            /\ stock_data st' = PDict []
            /\ fs st' = fs st
            /\ stderr st'
               = stderr st
                 ++ [bad_qty_msg (PInt (-2)); bad_item_msg (PInt 123);
                     remove_error_msg
                       (KeyError (not_in_stock_msg (PStr "orange")))]).
Proof.
  intros codec st k.
  destruct st as [sd0 fs0 err0 out0 clk]. cbn [fs].
  split; [|split].
  - intros Hf. main_prefix.
    rewrite (save_data_reports _ "inventory_clean.json" k)
      by (cbn [fs]; destruct Hf as [-> | [-> _]]; reflexivity).
    cbn [fs].
    assert (Hm : forall sd err out,
               missing (mkState sd fs0 err out clk) "inventory_clean.json").
    { intros sd err out. destruct Hf as [Hf | [Hf ->]].
      - right; right; left. now exists k.
      - right; left. exact Hf. }
    destruct Hf as [Hf | [Hf _]]; rewrite Hf; flatten_state;
      rewrite load_data_missing by apply Hm; main_suffix.
  - intros Hf Hk. main_prefix.
    rewrite (save_data_reports _ "inventory_clean.json" k)
      by (cbn [fs]; now rewrite Hf).
    cbn [fs]. rewrite Hf. flatten_state.
    rewrite (load_data_unopenable _ "inventory_clean.json" k) by assumption.
    main_suffix.
  - intros Hf. main_prefix.
    rewrite save_data_write_only by exact Hf.
    flatten_state.
    rewrite load_data_write_only by exact Hf.
    main_suffix.
Qed.

Lemma main_when_file_cannot_be_opened_witness :
  (exists st',
     main (store [] (with_file "inventory_clean.json"
                       (Uncreatable PermissionDenied) no_files))
     = (Ret tt, st')
     /\ stock_data st' = PDict []
     /\ fs st' = fs (store [] (with_file "inventory_clean.json"
                                 (Uncreatable PermissionDenied) no_files))
     /\ stderr st'
        = stderr (store [] (with_file "inventory_clean.json"
                              (Uncreatable PermissionDenied) no_files))
          ++ [bad_qty_msg (PInt (-2)); bad_item_msg (PInt 123);
              remove_error_msg (KeyError (not_in_stock_msg (PStr "orange")));
              save_error_msg "inventory_clean.json" (OSError PermissionDenied);
              file_not_found_msg "inventory_clean.json"])
  /\ (exists st',
        main (store [] (with_file "inventory_clean.json"
                          (Unopenable IsADirectory) no_files))
        = (Raise (OSError IsADirectory), st')
        /\ stock_data st' = PDict []
        /\ fs st' = fs (store [] (with_file "inventory_clean.json"
                                    (Unopenable IsADirectory) no_files))
        /\ stderr st'
           = stderr (store [] (with_file "inventory_clean.json"
                                 (Unopenable IsADirectory) no_files))
             ++ [bad_qty_msg (PInt (-2)); bad_item_msg (PInt 123);
                 remove_error_msg (KeyError (not_in_stock_msg (PStr "orange")));
                 save_error_msg "inventory_clean.json" (OSError IsADirectory)])
  /\ (exists st',
        main (store [] (with_file "inventory_clean.json" WriteOnly no_files))
        = (Raise (OSError PermissionDenied), st')
        /\ stock_data st' = PDict []
        /\ fs st' = fs (store [] (with_file "inventory_clean.json"
                                    WriteOnly no_files))
        /\ stderr st'
           = stderr (store [] (with_file "inventory_clean.json"
                                 WriteOnly no_files))
             ++ [bad_qty_msg (PInt (-2)); bad_item_msg (PInt 123);
                 remove_error_msg
                   (KeyError (not_in_stock_msg (PStr "orange")))]).
Proof.
  split; [|split].
  - apply (proj1 (main_when_file_cannot_be_opened py_json
                    (store [] (with_file "inventory_clean.json"
                                 (Uncreatable PermissionDenied) no_files))
                    PermissionDenied)).
    left. reflexivity.
  - apply (proj1 (proj2 (main_when_file_cannot_be_opened py_json
                           (store [] (with_file "inventory_clean.json"
                                        (Unopenable IsADirectory) no_files))
                           IsADirectory))).
    + reflexivity.
    + discriminate.
  - apply (proj2 (proj2 (main_when_file_cannot_be_opened py_json
                           (store [] (with_file "inventory_clean.json"
                                        WriteOnly no_files))
                           PermissionDenied))).
    reflexivity.
Defined.

(** ** A fresh inventory, thresholds, validation *)

(** X18. A fresh inventory is empty: after [__init__], in any
    environment, [get_qty] returns 0 for every item, [check_low_items]
    returns the empty list for every threshold, and [print_data] prints
    [Inventory is empty.] between header and footer. *)
Theorem fresh_inventory_is_empty :
  forall (st : state) (item : string) (T : Z),
    exists st0,
      init st = (Ret tt, st0)
      /\ get_qty item st0 = (Ret (PInt 0), st0)
      /\ check_low_items T st0 = (Ret [], st0)
      /\ print_data st0
         = (Ret tt,
            push_lines [[Lit (nl ++ "--- Items Report ---")];
                        [Lit "Inventory is empty."];
                        [Lit ("--------------------" ++ nl)]] st0).
Proof.
  intros st item T. exists (set_stock (PDict []) st).
  split; [reflexivity|]. split; [reflexivity|]. split; [reflexivity|].
  now rewrite (print_data_dict _ []).
Qed.

Lemma low_loop_Ret d T acc l :
  low_loop d T acc = Ret l -> l = acc ++ below T d.
Proof.
  revert acc. induction d as [|[k v] d IH]; intros acc; simpl.
  - intros H. inversion H. unfold below. simpl. now rewrite app_nil_r.
  - unfold py_lt_int, below. simpl.
    destruct (int_value v) as [x|]; [|discriminate].
    destruct (x <? T); intros H; apply IH in H; subst l; simpl;
      [now rewrite <- app_assoc | reflexivity].
Qed.

Lemma below_incl T T' d k :
  T <= T' -> In k (below T d) -> In k (below T' d).
Proof.
  intros Hle. unfold below, keys. rewrite !in_map_iff.
  intros [kv [E Hin]]. exists kv. split; auto.
  apply filter_In in Hin. destruct Hin as [Hin Hlt].
  apply filter_In. split; auto.
  destruct (int_value (snd kv)) as [x|]; [|discriminate].
  apply Z.ltb_lt in Hlt. apply Z.ltb_lt. lia.
Qed.

(** X19. Raising the threshold never loses an item: whenever
    [check_low_items] returns for thresholds [T <= T'], every item listed
    for [T] is listed for [T']. *)
Theorem check_low_items_monotone :
  forall (st : state) (T T' : Z) (l l' : list string),
    T <= T' ->
    check_low_items T st = (Ret l, st) ->
    check_low_items T' st = (Ret l', st) ->
    forall k, In k l -> In k l'.
Proof.
  intros st T T' l l' Hle H H' k Hin.
  unfold check_low_items in *. revert H H'. run.
  destruct (stock_data st) as [| | | | |d]; cbn [py_items]; try discriminate.
  destruct (low_loop d T []) as [r|] eqn:E; [|discriminate].
  destruct (low_loop d T' []) as [r'|] eqn:E'; [|discriminate].
  intros H H'. inversion H; inversion H'; subst.
  apply low_loop_Ret in E. apply low_loop_Ret in E'. simpl in *. subst.
  eapply below_incl; eauto.
Qed.

Lemma check_low_items_monotone_witness : In "fig" ["apple"; "fig"].
Proof.
  apply (check_low_items_monotone
           (store [("pear", PInt 12); ("apple", PInt 7); ("fig", PInt 2)] no_files)
           5 10 ["fig"] ["apple"; "fig"]).
  - lia.
  - reflexivity.
  - reflexivity.
  - simpl. left. reflexivity.
Defined.

(** X20. The item is validated before the quantity: with an invalid item,
    [add_item] and [remove_item] print the item message whatever the
    quantity is, and the quantity message is printed only for a valid
    item with an invalid quantity. *)
Theorem validation_reports_item_first :
  forall (st : state) (item qty : pyval) (logs : option (list message)),
    (~ valid_item item ->
       add_item item qty logs st
       = (Ret logs,
          push_stderr [Lit "Error: Item name '"; Fmt item;
                       Lit "' is not a valid string."] st)
       /\ remove_item item qty st
          = (Ret tt,
             push_stderr [Lit "Error: Item name '"; Fmt item;
                          Lit "' is not a valid string."] st))
    /\ (valid_item item -> ~ valid_qty qty ->
          add_item item qty logs st
          = (Ret logs,
             push_stderr [Lit "Error: Quantity '"; Fmt qty;
                          Lit "' is not a valid non-negative integer."] st)
          /\ remove_item item qty st
             = (Ret tt,
                push_stderr [Lit "Error: Quantity '"; Fmt qty;
                             Lit "' is not a valid non-negative integer."] st)).
Proof.
  intros st item qty logs. split.
  - intros H. split;
      [now apply add_item_bad_item | now apply remove_item_bad_item].
  - intros Hi Hq. split;
      [now apply add_item_bad_qty | now apply remove_item_bad_qty].
Qed.

Lemma validation_reports_item_first_witness :
  add_item (PInt 123) (PInt (-1)) None (store [] no_files)
  = (Ret None,
     push_stderr [Lit "Error: Item name '"; Fmt (PInt 123);
                  Lit "' is not a valid string."] (store [] no_files))
  /\ remove_item (PInt 123) (PInt (-1)) (store [] no_files)
     = (Ret tt,
        push_stderr [Lit "Error: Item name '"; Fmt (PInt 123);
                     Lit "' is not a valid string."] (store [] no_files)).
Proof.
  apply (proj1 (validation_reports_item_first (store [] no_files)
                  (PInt 123) (PInt (-1)) None)).
  intros [k [E _]]. discriminate.
Defined.

(** X21. A [bool] passes the quantity guard, being an [int] for
    [isinstance]: [add_item] and [remove_item] with [True] change the
    mapping as with 1, and with [False] as with 0. *)
Theorem bool_quantity_counts_as_integer :
  forall (st : state) (item : pyval) (b : bool) (logs : option (list message)),
    stock_data (snd (add_item item (PBool b) logs st))
    = stock_data (snd (add_item item (PInt (if b then 1 else 0)) logs st))
    /\ snd (remove_item item (PBool b) st)
       = snd (remove_item item (PInt (if b then 1 else 0)) st).
Proof.
  intros st item b logs. unfold add_item, remove_item.
  destruct (check_item item) as [k|]; [|split; reflexivity].
  destruct b; cbn [check_qty int_value Z.ltb Z.compare]; split;
    try reflexivity; run;
    destruct (py_get (stock_data st) k (PInt 0)) as [old|]; try reflexivity;
    cbn; destruct (py_add_int old _) as [new|]; try reflexivity;
    cbn; destruct (py_setitem (stock_data st) k new); reflexivity.
Qed.
